(** * go-pcf8523: register-level model of the PCF8523 RTC driver

    A shallow embedding of [pcf8523.go].  Go's fixed-width integers are
    integers of [Z] with the wrap-around of every conversion written out;
    wire bytes are [Byte.byte]; the I2C transport of periph.io is a record
    of operations on an abstract world, and the driver's methods are
    programs in a small state monad that also records which transport
    operations were issued. *)

From Stdlib Require Import ZArith String List Bool Lia.
From Stdlib Require Import Strings.Byte.
From Stdlib Require Import Floats.
Import ListNotations.
Local Open Scope Z_scope.
Set Warnings "-inexact-float".

(** ** Machine integers *)

Module GoInt.

(** The value of a [byte] (Go's [uint8]) as an integer in [0, 255]. *)
Definition u8 (b : byte) : Z := Z.of_N (Byte.to_N b).

(** Wrap-around of unsigned 8-bit arithmetic. *)
Definition wrap8 (z : Z) : Z := z mod 256.

(** The conversion [byte(z)]: the low eight bits of [z]. *)
Definition to_byte (z : Z) : byte :=
  match Byte.of_N (Z.to_N (wrap8 z)) with
  | Some b => b
  | None => x00
  end.

(** The conversion [int8(z)] and the wrap-around of [int8] arithmetic:
    the low eight bits of [z] read as two's complement. *)
Definition to_int8 (z : Z) : Z :=
  let m := wrap8 z in if m <? 128 then m else m - 256.

(** Go's [int] on a 64-bit target, as two's complement. *)
Definition to_int (z : Z) : Z :=
  let m := z mod 2 ^ 64 in if m <? 2 ^ 63 then m else m - 2 ^ 64.

End GoInt.
Import GoInt.

(** Checking a decidable property on every integer of an interval. *)
Fixpoint check_from (lo : Z) (n : nat) (P : Z -> bool) : bool :=
  match n with
  | O => true
  | S k => if P lo then check_from (lo + 1) k P else false
  end.

(** ** BCD codec *)

(** [parseBcd]: the arithmetic is done on [byte] operands, so the product
    and the sum wrap at 256 before the result is widened to [int]. *)
Definition parseBcd (value : byte) : Z :=
  let v := u8 value in
  wrap8 (Z.land v 0xF + wrap8 (Z.land (Z.shiftr v 4) 0xF * 10)).

(** [encodeBcd]: Go's [%] and [/] on [int] truncate toward zero
    ([Z.rem], [Z.quot]); the result keeps the low eight bits. *)
Definition encodeBcd (value : Z) : byte :=
  to_byte (Z.lor (Z.rem value 10) (to_int (Z.shiftl (Z.quot value 10) 4))).

(** ** float64 to int8 *)

Module GoFloat.

(** Go's [float64] is IEEE 754 binary64, which is the primitive [float].
    [trunc f] is [f] with its fraction discarded, when [f] is finite. *)
Definition trunc (f : float) : option Z :=
  match Prim2SF f with
  | S754_zero _ => Some 0
  | S754_finite s m e =>
      let a := if 0 <=? e then Z.shiftl (Z.pos m) e
               else Z.shiftr (Z.pos m) (- e) in
      Some (if s then - a else a)
  | S754_infinity _ => None
  | S754_nan => None
  end.

(** The conversion [int8(f)] of a non-constant [f]: the fraction is
    discarded; when the result does not fit [int8] (or [f] is not
    finite) the value is implementation-dependent, and is whatever the
    target [oob] makes of it. *)
Definition float64_to_int8 (oob : float -> Z) (f : float) : Z :=
  match trunc f with
  | Some z => if (-128 <=? z) && (z <=? 127) then z else to_int8 (oob f)
  | None => to_int8 (oob f)
  end.

(** Rounding to the nearest integer, halves away from zero
    ([math.Round]); the conversion the specification words describe. *)
Definition round_nearest (f : float) : option Z :=
  match Prim2SF f with
  | S754_zero _ => Some 0
  | S754_finite s m e =>
      let a := if 0 <=? e then Z.shiftl (Z.pos m) e
               else Z.shiftr (Z.pos m + Z.shiftl 1 (- e - 1)) (- e) in
      Some (if s then - a else a)
  | S754_infinity _ => None
  | S754_nan => None
  end.

End GoFloat.

(** ** The part of package [time] the driver uses *)

Module GoTime.

(** A location is UTC or a zone at a fixed number of seconds east of it. *)
Inductive Location : Type :=
| UTC
| FixedZone (name : string) (offset : Z).

Definition zone_offset (l : Location) : Z :=
  match l with
  | UTC => 0
  | FixedZone _ o => o
  end.

(** An instant (seconds and nanoseconds since 1970-01-01T00:00:00Z) and
    the location it is presented in. *)
Record Time : Type := mkTime {
  unix : Z;
  nsec : Z;
  loc : Location
}.

(** Days since 1970-01-01 of a date of the proleptic Gregorian calendar. *)
Definition days_from_civil (y m d : Z) : Z :=
  let y := if m <=? 2 then y - 1 else y in
  let era := y / 400 in
  let yoe := y - era * 400 in
  let mp := (m + 9) mod 12 in
  let doy := (153 * mp + 2) / 5 + d - 1 in
  let doe := yoe * 365 + yoe / 4 - yoe / 100 + doy in
  era * 146097 + doe - 719468.

(** Year, month and day of a day number. *)
Definition civil_from_days (z : Z) : Z * Z * Z :=
  let z := z + 719468 in
  let era := z / 146097 in
  let doe := z - era * 146097 in
  let yoe := (doe - doe / 1460 + doe / 36524 - doe / 146096) / 365 in
  let y := yoe + era * 400 in
  let doy := doe - (365 * yoe + yoe / 4 - yoe / 100) in
  let mp := (5 * doy + 2) / 153 in
  let d := doy - (153 * mp + 2) / 5 + 1 in
  let m := if mp <? 10 then mp + 3 else mp - 9 in
  (if m <=? 2 then y + 1 else y, m, d).

(** [time.Date]: fields outside their usual ranges are normalised
    (October 32 is November 1). *)
Definition Date (year month day hour min sec nanos : Z) (l : Location) : Time :=
  let m := month - 1 in
  let year := year + m / 12 in
  let month := m mod 12 + 1 in
  let days := days_from_civil year month 1 + (day - 1) in
  let secs := days * 86400 + hour * 3600 + min * 60 + sec + nanos / 1000000000 in
  mkTime (secs - zone_offset l) (nanos mod 1000000000) l.

(** The zero value [time.Time{}]: January 1, year 1, 00:00:00 UTC. *)
Definition zero : Time := mkTime (-62135596800) 0 UTC.

(** [t.In(l)]: the same instant, presented in [l]. *)
Definition In (t : Time) (l : Location) : Time :=
  mkTime (unix t) (nsec t) l.

(** Seconds since the epoch on the wall clock of [t]'s location. *)
Definition wall (t : Time) : Z := unix t + zone_offset (loc t).

Definition Year (t : Time) : Z := fst (fst (civil_from_days (wall t / 86400))).
Definition Month (t : Time) : Z := snd (fst (civil_from_days (wall t / 86400))).
Definition Day (t : Time) : Z := snd (civil_from_days (wall t / 86400)).
Definition Hour (t : Time) : Z := (wall t mod 86400) / 3600.
Definition Minute (t : Time) : Z := (wall t mod 3600) / 60.
Definition Second (t : Time) : Z := wall t mod 60.
(** Sunday is 0; 1970-01-01 was a Thursday. *)
Definition Weekday (t : Time) : Z := (wall t / 86400 + 4) mod 7.

(** Decidable checks on a day number, run over the days of 2000-2099:
    the date of the day is a calendar date of those years that
    [days_from_civil] takes back to the day; and a day whose year lies
    in those years is one of those days. *)
Definition civil_ok (d : Z) : bool :=
  let '(y, m, dd) := civil_from_days d in
  (days_from_civil y m dd =? d) && (2000 <=? y) && (y <=? 2099)
  && (1 <=? m) && (m <=? 12) && (1 <=? dd) && (dd <=? 31).

Definition year_of (d : Z) : Z := fst (fst (civil_from_days d)).

Definition year_in_century_ok (d : Z) : bool :=
  negb ((2000 <=? year_of d) && (year_of d <=? 2099))
  || ((10957 <=? d) && (d <? 47482)).

End GoTime.

(** ** Errors, transport and the driver monad *)

(** Go [error] values: those the transport produces (opaque to the driver,
    told apart by a code) and those made with [errors.New]. A nil [error]
    is [None : option error]. *)
Inductive error : Type :=
| TransportError (code : N)
| ErrorsNew (msg : string).

(** The capability the driver needs from periph.io: [i2creg.Open], the
    bus's [Tx(addr, w, r)] and [Close]. [Bus_Tx b addr w n] is a
    transaction with write bytes [w] and a read buffer of [n] bytes; it
    gives the bytes the bus put into the buffer and the error. *)
Record Transport : Type := {
  BusCloser : Type;
  World : Type;
  i2creg_Open : string -> World -> (error + BusCloser) * World;
  Bus_Tx : BusCloser -> Z -> list byte -> nat -> World -> (list byte * option error) * World;
  Bus_Close : BusCloser -> World -> option error * World
}.

(** What the driver asked of the transport, oldest first. *)
Inductive event : Type :=
| EvOpen (path : string)
| EvTx (addr : Z) (w : list byte) (rlen : nat)
| EvClose.

Definition is_close (e : event) : bool :=
  match e with EvClose => true | _ => false end.

(** A read buffer [make([]byte, n)] after the bus copied [data] into it. *)
Definition fill (n : nat) (data : list byte) : list byte :=
  firstn n (data ++ repeat x00 n).

Section Driver.

Context {T : Transport}.

(** What the target makes of an out-of-range [float64] to [int8]
    conversion. *)
Variable oob : float -> Z.

Record state : Type := mkState {
  env : World T;
  trace : list event
}.

(** A call either returns a value in a new state or panics (a method
    called on a nil bus). *)
Inductive outcome (A : Type) : Type :=
| Ok (a : A) (s : state)
| Panic.
Arguments Ok {A} a s.
Arguments Panic {A}.

Definition M (A : Type) : Type := state -> outcome A.

Definition ret {A : Type} (a : A) : M A := fun s => Ok a s.

Definition bind {A B : Type} (m : M A) (k : A -> M B) : M B :=
  fun s => match m s with
           | Ok a s' => k a s'
           | Panic => Panic
           end.

Definition panic {A : Type} : M A := fun _ => Panic.

Notation "x <- m ;; k" := (bind m (fun x => k))
  (at level 61, m at next level, right associativity).
Notation "' pat <- m ;; k" := (bind m (fun x => match x with pat => k end))
  (at level 61, pat pattern, m at next level, right associativity).

(** [i2c.Dev] and the driver's handle; a nil interface value is [None],
    so [Pcf8523_zero] is the composite literal [Pcf8523{}]. *)
Record Dev : Type := mkDev {
  Addr : Z;
  Bus : option (BusCloser T)
}.

Record Pcf8523 : Type := mkPcf8523 {
  Device : Dev;
  bus : option (BusCloser T)
}.

Definition Pcf8523_zero : Pcf8523 :=
  mkPcf8523 (mkDev 0 None) None.

(** [i2creg.Open(path)] *)
Definition Open (path : string) : M (error + BusCloser T) :=
  fun s =>
    let '(r, w') := i2creg_Open T path (env s) in
    Ok r (mkState w' (trace s ++ [EvOpen path])).

(** [d.Tx(w, r)] on an [i2c.Dev], with [r] a fresh buffer of [n] bytes:
    the buffer afterwards, and the error. *)
Definition Tx (d : Dev) (w : list byte) (n : nat) : M (list byte * option error) :=
  match Bus d with
  | None => panic
  | Some b =>
      fun s =>
        let '((data, err), w') := Bus_Tx T b (Addr d) w n (env s) in
        Ok (fill n data, err) (mkState w' (trace s ++ [EvTx (Addr d) w n]))
  end.

(** [func (p *Pcf8523) Close()] *)
Definition Close (p : Pcf8523) : M unit :=
  match bus p with
  | None => panic
  | Some b =>
      fun s =>
        let '(_, w') := Bus_Close T b (env s) in
        Ok tt (mkState w' (trace s ++ [EvClose]))
  end.

(** [ReadReg]: reads a single register at the given address. *)
Definition ReadReg (p : Pcf8523) (address : byte) : M (byte * option error) :=
  '(r, err) <- Tx (Device p) [address] 1 ;;
  match err with
  | Some e => ret (x00, Some e)
  | None => ret (nth 0 r x00, None)
  end.

(** [WriteReg]: sets a single register at the given address. *)
Definition WriteReg (p : Pcf8523) (address value : byte) : M (option error) :=
  '(_, err) <- Tx (Device p) [address; value] 0 ;;
  ret err.

(** [ConfigurePowerManagement] *)
Definition ConfigurePowerManagement (p : Pcf8523)
    (switchover directSwitchingMode batteryLowDetection : bool) : M (option error) :=
  let value := 0 in
  let value := if directSwitchingMode then Z.lor value 0x1 else value in
  let value := if negb switchover then Z.lor value 0x2 else value in
  let value := if negb batteryLowDetection then Z.lor value 0x4 else value in
  if value =? 0x6 then
    ret (Some (ErrorsNew "Invalid power management configuration"%string))
  else
    WriteReg p x02 (to_byte value).

(** [IsBatteryLow]: true if the BLF flag is set. *)
Definition IsBatteryLow (p : Pcf8523) : M (bool * option error) :=
  '(val, err) <- ReadReg p x02 ;;
  ret (negb (Z.land (u8 val) 0x4 =? 0), err).

(** [getCorrection]: bit 6 of the register overwrites bit 7, and the
    byte is then read as an [int8]. *)
Definition getCorrection (p : Pcf8523) : M (Z * option error) :=
  '(c, err) <- ReadReg p x0e ;;
  match err with
  | Some e => ret (0, Some e)
  | None =>
      let c := u8 c in
      let c := if negb (Z.land c 0x40 =? 0) then Z.lor c 0x80 else Z.land c 0x7F in
      ret (to_int8 c, None)
  end.

(** [ResetTimeCorrection]: sets the time correction register to zero. *)
Definition ResetTimeCorrection (p : Pcf8523) : M (option error) :=
  WriteReg p x0e x00.

(** [AddTimeCorrection]: adds the given correction, in seconds per day,
    to the offset register. *)
Definition AddTimeCorrection (p : Pcf8523) (secondsPerDay : float) : M (option error) :=
  let offset := GoFloat.float64_to_int8 oob (secondsPerDay * 11.57407 / 4.34)%float in
  '(current_correction, err) <- getCorrection p ;;
  match err with
  | Some e => ret (Some e)
  | None =>
      let new_correction := to_int8 (to_int8 current_correction + offset) in
      let new_correction := if new_correction >? 63 then 63 else new_correction in
      let new_correction := if new_correction <? -64 then -64 else new_correction in
      WriteReg p x0e (to_byte (Z.land (u8 (to_byte new_correction)) 0x7F))
  end.

(** [GetTime]: reads the seven time registers in one transaction. *)
Definition GetTime (p : Pcf8523) : M (GoTime.Time * option error) :=
  '(r, err) <- Tx (Device p) [x03] 7 ;;
  match err with
  | Some e => ret (GoTime.zero, Some e)
  | None =>
      ret (GoTime.Date
             (2000 + parseBcd (nth 6 r x00))
             (parseBcd (nth 5 r x00))
             (parseBcd (nth 3 r x00))
             (parseBcd (nth 2 r x00))
             (parseBcd (nth 1 r x00))
             (Z.land (parseBcd (nth 0 r x00)) 0x7F)
             0
             GoTime.UTC, None)
  end.

(** [SetTime]: writes the seven time registers in one transaction. *)
Definition SetTime (p : Pcf8523) (date : GoTime.Time) : M (option error) :=
  let date := GoTime.In date GoTime.UTC in
  let w := [ x03;
             encodeBcd (GoTime.Second date);
             encodeBcd (GoTime.Minute date);
             encodeBcd (GoTime.Hour date);
             encodeBcd (GoTime.Day date);
             encodeBcd (GoTime.Weekday date);
             encodeBcd (GoTime.Month date);
             encodeBcd (GoTime.Year date - 2000) ] in
  '(_, err) <- Tx (Device p) w 0 ;;
  match err with
  | Some e => ret (Some e)
  | None => ret None
  end.

(** [NewPcf8523]: opens the bus and tries to clear the oscillator stop
    flag. The [err] returned when the corrective write fails is the
    one bound by the first [ReadReg]. *)
Definition NewPcf8523 (path : string) (i2caddr : Z) : M (Pcf8523 * option error) :=
  r <- Open path ;;
  match r with
  | inl e => ret (Pcf8523_zero, Some e)
  | inr b =>
      let d := mkDev i2caddr (Some b) in
      let p := mkPcf8523 d (Some b) in
      '(seconds_reg, err) <- ReadReg p x03 ;;
      match err with
      | Some _ => ret (Pcf8523_zero, err)
      | None =>
          if negb (Z.land (u8 seconds_reg) 0x80 =? 0) then
            werr <- WriteReg p x03 (to_byte (Z.land (u8 seconds_reg) 0x7F)) ;;
            match werr with
            | Some _ => ret (Pcf8523_zero, err)
            | None =>
                '(seconds_reg, err) <- ReadReg p x03 ;;
                match err with
                | Some _ => ret (Pcf8523_zero, err)
                | None =>
                    if negb (Z.land (u8 seconds_reg) 0x80 =? 0) then
                      ret (Pcf8523_zero,
                           Some (ErrorsNew "PCF8523 oscillator stopped"%string))
                    else ret (p, None)
                end
            end
          else ret (p, None)
      end
  end.

End Driver.

Arguments state T : clear implicits.
Arguments outcome T A : clear implicits.
Arguments Pcf8523 T : clear implicits.
Arguments Dev T : clear implicits.
Arguments Ok {T A} a s.
Arguments Panic {T A}.

(** A bus that echoes at world [w0]: it takes the write of a register
    address and data, and a read from that address of as many bytes then
    gives exactly the data back. *)
Definition echoes (T : Transport) (b : BusCloser T) (addr : Z) (w0 : World T) : Prop :=
  forall (reg : byte) (data : list byte),
  exists (junk : list byte) (w1 w2 : World T),
    Bus_Tx T b addr (reg :: data) 0 w0 = ((junk, None), w1)
    /\ Bus_Tx T b addr [reg] (length data) w1 = ((data, None), w2).

(** ** A register-file device for concrete runs *)

Module Mock.

(** The registers of the one device on the bus, the errors the coming
    transactions end with ([None]: the transaction goes through; past
    the end of the script every transaction goes through), and the
    error opening the bus gives, if any. *)
Record world : Type := mkWorld {
  regs : Z -> byte;
  script : list (option error);
  open_error : option error;
  closed : bool
}.

Fixpoint store (r : Z -> byte) (a : Z) (data : list byte) : Z -> byte :=
  match data with
  | [] => r
  | b :: rest => store (fun x => if x =? a then b else r x) (a + 1) rest
  end.

Fixpoint load (r : Z -> byte) (a : Z) (n : nat) : list byte :=
  match n with
  | O => []
  | S k => r a :: load r (a + 1) k
  end.

(** The first written byte selects a register; the bytes after it are
    stored from there on, and the bytes read come from where the
    register pointer then stands. *)
Definition tx (_ : unit) (_ : Z) (w : list byte) (n : nat) (st : world)
    : (list byte * option error) * world :=
  match script st with
  | Some e :: rest =>
      (([], Some e), mkWorld (regs st) rest (open_error st) (closed st))
  | _ =>
      let rest := tl (script st) in
      match w with
      | [] => ((load (regs st) 0 n, None),
               mkWorld (regs st) rest (open_error st) (closed st))
      | a :: data =>
          let r := store (regs st) (u8 a) data in
          ((load r (u8 a + Z.of_nat (length data)) n, None),
           mkWorld r rest (open_error st) (closed st))
      end
  end.

Definition open (_ : string) (st : world) : (error + unit) * world :=
  match open_error st with
  | Some e => (inl e, st)
  | None => (inr tt, st)
  end.

Definition close (_ : unit) (st : world) : option error * world :=
  (None, mkWorld (regs st) (script st) (open_error st) true).

Definition transport : Transport :=
  Build_Transport unit world open tx close.

(** A device whose registers all hold [b]. *)
Definition all_regs (b : byte) : Z -> byte := fun _ => b.

(** A device with register [a] holding [b] and every other register 0. *)
Definition one_reg (a : Z) (b : byte) : Z -> byte :=
  fun x => if x =? a then b else x00.

Definition start (r : Z -> byte) (sc : list (option error)) : state transport :=
  mkState (T := transport) (mkWorld r sc None false) [].

(** The handle [NewPcf8523] makes on this bus. *)
Definition handle (addr : Z) : Pcf8523 transport :=
  mkPcf8523 (T := transport) (mkDev (T := transport) addr (Some tt)) (Some tt).

(** Out-of-range [float64] to [int8] conversions give 0 here (what
    amd64 gives). *)
Definition oob (_ : float) : Z := 0.

End Mock.

(** ** A device that ignores writes *)

Module Stuck.

(** Every read gives 0x80 in each byte and writes change nothing: an
    oscillator that does not start. *)
Definition tx (_ : unit) (_ : Z) (_ : list byte) (n : nat) (st : unit)
    : (list byte * option error) * unit :=
  ((repeat x80 n, None), st).

Definition transport : Transport :=
  Build_Transport unit unit (fun _ st => (inr tt, st)) tx (fun _ st => (None, st)).

Definition start : state transport :=
  mkState (T := transport) tt [].

End Stuck.

(** ** Calendar dates and BCD digits *)

(** Both nibbles of a byte are decimal digits. *)
Definition valid_bcd (b : byte) : bool :=
  (u8 b mod 16 <=? 9) && (u8 b / 16 <=? 9).

Definition is_leap (y : Z) : bool :=
  (y mod 4 =? 0) && (negb (y mod 100 =? 0) || (y mod 400 =? 0)).

Definition days_in_month (y m : Z) : Z :=
  if m =? 2 then (if is_leap y then 29 else 28)
  else if (m =? 4) || (m =? 6) || (m =? 9) || (m =? 11) then 30
  else 31.

(** A date of the Gregorian calendar. *)
Definition valid_date (y m d : Z) : bool :=
  (1 <=? m) && (m <=? 12) && (1 <=? d) && (d <=? days_in_month y m).

(** The date survives the way to its day number and back. *)
Definition date_roundtrip_ok (y m d : Z) : bool :=
  negb (valid_date y m d)
  || (let '(y', m', d') :=
        GoTime.civil_from_days (GoTime.days_from_civil y m d) in
      (y' =? y) && (m' =? m) && (d' =? d)).

(** The checks of [GoTime.civil_ok] and [GoTime.year_in_century_ok] for
    the years 2000-2159, the years whose offset from 2000 [encodeBcd]
    still encodes in one byte. *)
Definition civil_ok_wide (d : Z) : bool :=
  let '(y, m, dd) := GoTime.civil_from_days d in
  (GoTime.days_from_civil y m dd =? d) && (2000 <=? y) && (y <=? 2159)
  && (1 <=? m) && (m <=? 12) && (1 <=? dd) && (dd <=? 31).

Definition year_in_wide_ok (d : Z) : bool :=
  negb ((2000 <=? GoTime.year_of d) && (GoTime.year_of d <=? 2159))
  || ((10957 <=? d) && (d <? 69396)).

(** * Properties *)

(** Linear arithmetic with division and remainder by constants. *)
Ltac divlia := Z.to_euclidean_division_equations; lia.

(** ** Machine integers and buffers *)

Lemma u8_range (b : byte) : 0 <= u8 b <= 255.
Proof.
  unfold u8. pose proof (Byte.to_N_bounded b). lia.
Qed.

Lemma to_byte_u8 (b : byte) : to_byte (u8 b) = b.
Proof.
  unfold to_byte, wrap8. pose proof (u8_range b) as R.
  rewrite Z.mod_small by lia. unfold u8.
  rewrite N2Z.id, Byte.of_to_N. reflexivity.
Qed.

Lemma u8_to_byte (z : Z) : u8 (to_byte z) = wrap8 z.
Proof.
  unfold to_byte, u8.
  assert (R : 0 <= wrap8 z < 256) by (unfold wrap8; apply Z.mod_pos_bound; lia).
  destruct (Byte.of_N (Z.to_N (wrap8 z))) as [b|] eqn:E.
  - apply Byte.to_of_N in E. rewrite E. lia.
  - apply Byte.of_N_None_iff in E. lia.
Qed.

Lemma to_int8_range (z : Z) : -128 <= to_int8 z <= 127.
Proof.
  unfold to_int8, wrap8. cbv zeta. pose proof (Z.mod_pos_bound z 256 ltac:(lia)).
  destruct (z mod 256 <? 128) eqn:E; [apply Z.ltb_lt in E | apply Z.ltb_ge in E]; lia.
Qed.

Lemma to_int8_small (z : Z) : -128 <= z <= 127 -> to_int8 z = z.
Proof.
  intros R. unfold to_int8, wrap8. cbv zeta.
  destruct (z mod 256 <? 128) eqn:E; [apply Z.ltb_lt in E | apply Z.ltb_ge in E]; divlia.
Qed.

Lemma fill_length (n : nat) (data : list byte) : length (fill n data) = n.
Proof.
  unfold fill. rewrite length_firstn, length_app, repeat_length. lia.
Qed.

Lemma fill_exact (data : list byte) : fill (length data) data = data.
Proof.
  unfold fill. rewrite firstn_app, Nat.sub_diag, firstn_all. simpl.
  apply app_nil_r.
Qed.

(** [check_from] decides the property on the whole interval. *)
Lemma check_from_sound (P : Z -> bool) (n : nat) :
  forall lo, check_from lo n P = true ->
  forall z, lo <= z < lo + Z.of_nat n -> P z = true.
Proof.
  induction n as [|k IH]; intros lo C z R.
  - lia.
  - simpl in C. destruct (P lo) eqn:E; [|discriminate].
    destruct (Z.eq_dec z lo) as [->|N]; [exact E|].
    apply (IH (lo + 1) C). lia.
Qed.

(** ** BCD codec *)

Example parseBcd_0x59 : parseBcd x59 = 59.
Proof. reflexivity. Qed.

Example encodeBcd_59 : encodeBcd 59 = x59.
Proof. reflexivity. Qed.

Example parseBcd_0x80 : parseBcd x80 = 80.
Proof. reflexivity. Qed.

Example encodeBcd_minus1 : encodeBcd (-1) = xff.
Proof. reflexivity. Qed.

(** Two decimal digits survive encoding and decoding. *)
Lemma parseBcd_encodeBcd_digits (d : Z) :
  0 <= d < 100 -> parseBcd (encodeBcd d) = d.
Proof.
  intros R.
  assert (C : check_from 0 100 (fun z => parseBcd (encodeBcd z) =? z) = true)
    by (vm_compute; reflexivity).
  apply Z.eqb_eq.
  apply (check_from_sound _ _ _ C). lia.
Qed.

(** A decoded byte is at most 165, so the [byte] arithmetic of
    [parseBcd] never wraps. *)
Lemma parseBcd_range (b : byte) : 0 <= parseBcd b <= 165.
Proof.
  destruct b; vm_compute; split; discriminate.
Qed.

(** C5: for every integer d in [0, 99], decoding the BCD encoding of d
    gives back d: parseBcd(encodeBcd(d)) = d. *)
Theorem parseBcd_encodeBcd_roundtrip (d : Z) :
  0 <= d <= 99 -> parseBcd (encodeBcd d) = d.
Proof.
  intros R. apply parseBcd_encodeBcd_digits. lia.
Qed.

Lemma parseBcd_encodeBcd_roundtrip_witness :
  0 <= 47 <= 99 /\ parseBcd (encodeBcd 47) = 47.
Proof.
  split; [lia | apply (parseBcd_encodeBcd_roundtrip 47); lia].
Defined.

(** ** Register primitives *)

(** On a handle that holds a bus, [ReadReg] is one transaction that
    writes the address and reads one byte. *)
Lemma ReadReg_runs {T : Transport} (p : Pcf8523 T) (a : byte) (s : state T)
    (b : BusCloser T) :
  Bus (Device p) = Some b ->
  ReadReg p a s =
    let '((data, err), w') := Bus_Tx T b (Addr (Device p)) [a] 1 (env s) in
    Ok (match err with
        | Some e => (x00, Some e)
        | None => (nth 0 (fill 1 data) x00, None)
        end)
       (mkState w' (trace s ++ [EvTx (Addr (Device p)) [a] 1])).
Proof.
  intros B. unfold ReadReg, bind, Tx. rewrite B.
  destruct (Bus_Tx T b (Addr (Device p)) [a] 1 (env s)) as [[data [e|]] w']; reflexivity.
Qed.

(** [WriteReg] is one write-only transaction of the address and the value. *)
Lemma WriteReg_runs {T : Transport} (p : Pcf8523 T) (a v : byte) (s : state T)
    (b : BusCloser T) :
  Bus (Device p) = Some b ->
  WriteReg p a v s =
    let '((_, err), w') := Bus_Tx T b (Addr (Device p)) [a; v] 0 (env s) in
    Ok err (mkState w' (trace s ++ [EvTx (Addr (Device p)) [a; v] 0])).
Proof.
  intros B. unfold WriteReg, bind, Tx. rewrite B.
  destruct (Bus_Tx T b (Addr (Device p)) [a; v] 0 (env s)) as [[data err] w']; reflexivity.
Qed.

(** ** Power management *)

(** C6: for every triple of boolean arguments, on a handle that holds a
    bus, ConfigurePowerManagement builds the byte with bit 0 =
    directSwitchingMode, bit 1 = not switchover, bit 2 = not
    batteryLowDetection and every other bit zero. When that byte is
    0b110 it returns the invalid-configuration error, the state of the
    transport and the trace being unchanged (no transaction is issued);
    otherwise it issues exactly one transaction, the write-only
    transaction of the two bytes 0x02 and that byte, and returns that
    transaction's error. *)
Theorem ConfigurePowerManagement_packs_and_guards {T : Transport}
    (p : Pcf8523 T) (switchover directSwitchingMode batteryLowDetection : bool)
    (s : state T) (b : BusCloser T) :
  Bus (Device p) = Some b ->
  exists value : byte,
    Z.testbit (u8 value) 0 = directSwitchingMode
    /\ Z.testbit (u8 value) 1 = negb switchover
    /\ Z.testbit (u8 value) 2 = negb batteryLowDetection
    /\ Z.shiftr (u8 value) 3 = 0
    /\ ConfigurePowerManagement p switchover directSwitchingMode
         batteryLowDetection s
       = if u8 value =? 6
         then Ok (Some (ErrorsNew "Invalid power management configuration"%string)) s
         else
           let r := Bus_Tx T b (Addr (Device p)) [x02; value] 0 (env s) in
           Ok (snd (fst r))
              (mkState (snd r)
                 (trace s ++ [EvTx (Addr (Device p)) [x02; value] 0])).
Proof.
  intros B.
  exists (to_byte (Z.b2z directSwitchingMode + 2 * Z.b2z (negb switchover)
                   + 4 * Z.b2z (negb batteryLowDetection))).
  destruct switchover, directSwitchingMode, batteryLowDetection;
    (repeat split; try reflexivity);
    unfold ConfigurePowerManagement, WriteReg, bind, ret, Tx; cbv zeta;
    rewrite B; simpl;
    match goal with
    | |- context [Bus_Tx T b ?a ?w 0 ?e] =>
        destruct (Bus_Tx T b a w 0 e) as [[junk err] w']; reflexivity
    end.
Qed.

(** Switchover on, direct switching on, detection off: 0b101 is written. *)
Lemma ConfigurePowerManagement_packs_and_guards_witness :
  exists value : byte,
    Z.testbit (u8 value) 0 = true
    /\ Z.testbit (u8 value) 1 = negb true
    /\ Z.testbit (u8 value) 2 = negb false
    /\ Z.shiftr (u8 value) 3 = 0
    /\ ConfigurePowerManagement (Mock.handle 104) true true false
         (Mock.start (Mock.all_regs xff) [])
       = if u8 value =? 6
         then Ok (Some (ErrorsNew "Invalid power management configuration"%string))
                (Mock.start (Mock.all_regs xff) [])
         else
           let r := Bus_Tx Mock.transport tt (Addr (Device (Mock.handle 104)))
                      [x02; value] 0 (env (Mock.start (Mock.all_regs xff) [])) in
           Ok (snd (fst r))
              (mkState (snd r)
                 (trace (Mock.start (Mock.all_regs xff) [])
                  ++ [EvTx (Addr (Device (Mock.handle 104))) [x02; value] 0])).
Proof.
  apply (ConfigurePowerManagement_packs_and_guards (Mock.handle 104)
           true true false (Mock.start (Mock.all_regs xff) []) tt).
  reflexivity.
Defined.

Example ConfigurePowerManagement_true_true_false :
  match ConfigurePowerManagement (Mock.handle 104) true true false
          (Mock.start (Mock.all_regs xff) []) with
  | Ok err s' =>
      err = None /\ Mock.regs (env s') 2 = x05
      /\ trace s' = [EvTx 104 [x02; x05] 0]
  | Panic => False
  end.
Proof. vm_compute. repeat split. Qed.

(** The rejected pattern 0b110 is the one with all three arguments false;
    switchover off with direct switching on packs to 0b011 and is written. *)
Example ConfigurePowerManagement_all_false :
  ConfigurePowerManagement (Mock.handle 104) false false false (Mock.start (Mock.all_regs x00) [])
  = Ok (Some (ErrorsNew "Invalid power management configuration"%string))
       (Mock.start (Mock.all_regs x00) []).
Proof. reflexivity. Qed.

Example ConfigurePowerManagement_false_true_true :
  match ConfigurePowerManagement (Mock.handle 104) false true true
          (Mock.start (Mock.all_regs x00) []) with
  | Ok err s' =>
      err = None /\ Mock.regs (env s') 2 = x03
      /\ trace s' = [EvTx 104 [x02; x03] 0]
  | Panic => False
  end.
Proof. vm_compute. repeat split. Qed.

(** ** Frequency correction *)

(** C7: for every raw byte read from register 0x0E, getCorrection copies
    bit 6 into bit 7, keeps the low seven bits and returns the signed
    value: a byte with bit 6 set gives a value in [-64, -1], a byte with
    bit 6 clear a value in [0, 63]. *)
Theorem getCorrection_sign_extends {T : Transport}
    (p : Pcf8523 T) (s s' : state T) (raw : byte) :
  ReadReg p x0e s = Ok (raw, None) s' ->
  exists v : Z,
    getCorrection p s = Ok (v, None) s'
    /\ Z.testbit v 7 = Z.testbit (u8 raw) 6
    /\ v mod 128 = u8 raw mod 128
    /\ (Z.testbit (u8 raw) 6 = true -> -64 <= v <= -1)
    /\ (Z.testbit (u8 raw) 6 = false -> 0 <= v <= 63).
Proof.
  intros R. unfold getCorrection, bind. rewrite R. cbv zeta.
  eexists. split; [reflexivity|].
  destruct raw; vm_compute; repeat split; intros; congruence.
Qed.

Lemma getCorrection_sign_extends_witness :
  exists v : Z,
    getCorrection (Mock.handle 104) (Mock.start (Mock.one_reg 14 x7f) [])
    = Ok (v, None)
         (mkState (T := Mock.transport)
            (Mock.mkWorld (Mock.one_reg 14 x7f) [] None false)
            [EvTx 104 [x0e] 1])
    /\ Z.testbit v 7 = Z.testbit (u8 x7f) 6
    /\ v mod 128 = u8 x7f mod 128
    /\ (Z.testbit (u8 x7f) 6 = true -> -64 <= v <= -1)
    /\ (Z.testbit (u8 x7f) 6 = false -> 0 <= v <= 63).
Proof.
  apply (getCorrection_sign_extends (Mock.handle 104)
           (Mock.start (Mock.one_reg 14 x7f) [])).
  reflexivity.
Defined.

Example getCorrection_0x7f :
  getCorrection (Mock.handle 104) (Mock.start (Mock.one_reg 14 x7f) [])
  = Ok (-1, None)
       (mkState (T := Mock.transport)
          (Mock.mkWorld (Mock.one_reg 14 x7f) [] None false)
          [EvTx 104 [x0e] 1]).
Proof. reflexivity. Qed.

(** Once [getCorrection] has returned the stored correction,
    [AddTimeCorrection] is the write of the low seven bits of the int8
    sum after the two comparisons. *)
Lemma AddTimeCorrection_runs {T : Transport} (oob : float -> Z)
    (p : Pcf8523 T) (secondsPerDay : float) (s s1 : state T) (cur : Z) :
  getCorrection p s = Ok (cur, None) s1 ->
  AddTimeCorrection oob p secondsPerDay s =
    let offset :=
      GoFloat.float64_to_int8 oob (secondsPerDay * 11.57407 / 4.34)%float in
    let nc := to_int8 (to_int8 cur + offset) in
    let nc := if nc >? 63 then 63 else nc in
    let nc := if nc <? -64 then -64 else nc in
    WriteReg p x0e (to_byte (Z.land (u8 (to_byte nc)) 0x7F)) s1.
Proof.
  intros G. unfold AddTimeCorrection. cbv zeta.
  unfold bind at 1. rewrite G. reflexivity.
Qed.

(** C4: at 0.3 seconds per day the product is about 0.8 LSB; the
    conversion AddTimeCorrection applies discards the fraction and gives
    0 on every target, where rounding to the nearest integer gives 1, and
    the register stays at 0. *)
Theorem AddTimeCorrection_discards_fraction :
  (forall oob : float -> Z,
     GoFloat.float64_to_int8 oob (0.3 * 11.57407 / 4.34)%float = 0)
  /\ GoFloat.round_nearest (0.3 * 11.57407 / 4.34)%float = Some 1
  /\ match AddTimeCorrection Mock.oob (Mock.handle 104) 0.3%float
             (Mock.start (Mock.all_regs x00) []) with
     | Ok err s' =>
         err = None
         /\ trace s' = [EvTx 104 [x0e] 1; EvTx 104 [x0e; x00] 0]
         /\ Mock.regs (env s') 14 = x00
     | Panic => False
     end.
Proof.
  split; [intros oob | split]; vm_compute; repeat split.
Qed.

(** The conversion is truncation toward zero on negative inputs too. *)
Example AddTimeCorrection_offset_negative :
  GoFloat.float64_to_int8 Mock.oob (-0.7 * 11.57407 / 4.34)%float = -1
  /\ GoFloat.round_nearest (-0.7 * 11.57407 / 4.34)%float = Some (-2).
Proof. vm_compute. split; reflexivity. Qed.

(** C2: with the register at 63 (0x3F) and 25 seconds per day, the delta
    is 66 LSB; the int8 sum 63 + 66 wraps to -127, which the clamp takes
    to -64, and 0x40 is written: the device then holds -64, where the sum
    saturated into [-64, 63] is 63. *)
Theorem AddTimeCorrection_wraps_before_clamping :
  (forall oob : float -> Z,
     GoFloat.float64_to_int8 oob (25 * 11.57407 / 4.34)%float = 66)
  /\ to_int8 (63 + 66) = -127
  /\ match AddTimeCorrection Mock.oob (Mock.handle 104) 25%float
             (Mock.start (Mock.one_reg 14 x3f) []) with
     | Ok err s' =>
         err = None
         /\ trace s' = [EvTx 104 [x0e] 1; EvTx 104 [x0e; x40] 0]
         /\ Mock.regs (env s') 14 = x40
         /\ match getCorrection (Mock.handle 104) s' with
            | Ok (v, _) _ => v = -64
            | Panic => False
            end
     | Panic => False
     end.
Proof.
  split; [intros oob | split]; vm_compute; repeat split.
Qed.

(** The example of the function's comment: 10 seconds per day on top of
    a register at 53 LSB stops at 63. *)
Example AddTimeCorrection_documented :
  match AddTimeCorrection Mock.oob (Mock.handle 104) 10%float
          (Mock.start (Mock.one_reg 14 x35) []) with
  | Ok err s' => err = None /\ Mock.regs (env s') 14 = x3f
  | Panic => False
  end.
Proof. vm_compute. split; reflexivity. Qed.

(** Whatever the register holds and whatever the delta is, the byte
    written has bit 7 clear, so what [getCorrection] reads back lies in
    [-64, 63]. *)
Lemma AddTimeCorrection_written_byte (nc : Z) :
  0 <= u8 (to_byte (Z.land (u8 (to_byte nc)) 0x7F)) <= 127.
Proof.
  rewrite u8_to_byte. unfold wrap8.
  assert (B : 0 <= Z.land (u8 (to_byte nc)) 0x7F < 128).
  { change 0x7F with (Z.ones 7). rewrite Z.land_ones by lia.
    apply Z.mod_pos_bound. lia. }
  rewrite Z.mod_small; lia.
Qed.

(** When the sum of the stored correction and the delta fits [int8], the
    value kept after the two comparisons is the sum saturated into
    [-64, 63]. *)
Lemma clamp_without_overflow (cur off : Z) :
  -128 <= cur <= 127 -> -128 <= cur + off <= 127 ->
  let nc := to_int8 (to_int8 cur + off) in
  let nc := if nc >? 63 then 63 else nc in
  let nc := if nc <? -64 then -64 else nc in
  nc = Z.max (-64) (Z.min 63 (cur + off)).
Proof.
  intros C S. cbv zeta. rewrite (to_int8_small cur C), (to_int8_small _ S).
  destruct (cur + off >? 63) eqn:E1.
  - apply Z.gtb_lt in E1. simpl. lia.
  - assert (cur + off <= 63) by (destruct (Z.gtb_spec (cur + off) 63); [discriminate | lia]).
    destruct (cur + off <? -64) eqn:E2;
      [apply Z.ltb_lt in E2 | apply Z.ltb_ge in E2]; lia.
Qed.

(** ** Reading the time *)

(** C1: with the seconds register at 0x80 (flag set, zero seconds) and
    the other registers holding 2000-01-01 00:00, GetTime decodes 0x80 to
    80 first and masks afterwards, so it passes 80 seconds to time.Date
    and returns 00:01:20, where parseBcd(0x80 & 0x7F) is 0. *)
Theorem GetTime_masks_after_decoding :
  Z.land (parseBcd x80) 0x7F = 80
  /\ parseBcd (to_byte (Z.land (u8 x80) 0x7F)) = 0
  /\ match GetTime (Mock.handle 104)
             (Mock.start (Mock.store (Mock.all_regs x00) 3
                            [x80; x00; x00; x01; x06; x01; x00]) []) with
     | Ok (t, err) _ =>
         err = None
         /\ t = GoTime.Date 2000 1 1 0 0 80 0 GoTime.UTC
         /\ GoTime.Minute t = 1
         /\ GoTime.Second t = 20
     | Panic => False
     end.
Proof.
  vm_compute. repeat split.
Qed.

(** The mask after decoding never removes the flag: for a seconds byte
    with bit 7 set the value passed on differs from the decoded low seven
    bits, and for one with bit 7 clear it is the same. *)
Lemma seconds_with_flag (b : byte) :
  Z.testbit (u8 b) 7 = true ->
  Z.land (parseBcd b) 0x7F <> parseBcd (to_byte (Z.land (u8 b) 0x7F)).
Proof.
  destruct b; vm_compute; congruence.
Qed.

Lemma seconds_without_flag (b : byte) :
  Z.testbit (u8 b) 7 = false ->
  Z.land (parseBcd b) 0x7F = parseBcd (to_byte (Z.land (u8 b) 0x7F)).
Proof.
  destruct b; vm_compute; congruence.
Qed.

(** ** Opening the device *)

(** C3: the first read gives 0x80 and the corrective write then fails
    with a transport error; NewPcf8523 returns the zero handle with a nil
    error, because the error it returns there is the first read's. *)
Theorem NewPcf8523_write_failure_returns_nil :
  match NewPcf8523 "/dev/i2c-1" 104
          (Mock.start (Mock.one_reg 3 x80) [None; Some (TransportError 5)]) with
  | Ok (p, err) s' =>
      err = None
      /\ p = Pcf8523_zero
      /\ trace s' = [EvOpen "/dev/i2c-1"; EvTx 104 [x03] 1; EvTx 104 [x03; x00] 0]
  | Panic => False
  end.
Proof.
  vm_compute. repeat split.
Qed.

(** On every transport: when the first read shows the flag and the
    corrective write fails, the result is the zero handle and a nil
    error. *)
Lemma NewPcf8523_corrective_write_failure {T : Transport}
    (path : string) (i2caddr : Z) (s : state T) (b : BusCloser T)
    (w1 w2 w3 : World T) (data junk : list byte) (e : error) :
  i2creg_Open T path (env s) = (inr b, w1) ->
  Bus_Tx T b i2caddr [x03] 1 w1 = ((data, None), w2) ->
  Z.land (u8 (nth 0 (fill 1 data) x00)) 0x80 <> 0 ->
  Bus_Tx T b i2caddr
    [x03; to_byte (Z.land (u8 (nth 0 (fill 1 data) x00)) 0x7F)] 0 w2
  = ((junk, Some e), w3) ->
  exists s' : state T,
    NewPcf8523 path i2caddr s = Ok (Pcf8523_zero, None) s'.
Proof.
  intros O R F W.
  unfold NewPcf8523, ReadReg, WriteReg, Open, Tx, bind, ret. simpl.
  rewrite O. simpl. rewrite R. simpl.
  apply Z.eqb_neq in F. rewrite F. simpl. rewrite W. simpl.
  eexists. reflexivity.
Qed.

(** The two reads do hand the transport's error on. *)
Example NewPcf8523_first_read_failure :
  match NewPcf8523 "/dev/i2c-1" 104
          (Mock.start (Mock.one_reg 3 x80) [Some (TransportError 5)]) with
  | Ok (p, err) _ => err = Some (TransportError 5) /\ p = Pcf8523_zero
  | Panic => False
  end.
Proof. vm_compute. split; reflexivity. Qed.

Example NewPcf8523_second_read_failure :
  match NewPcf8523 "/dev/i2c-1" 104
          (Mock.start (Mock.one_reg 3 x80) [None; None; Some (TransportError 5)]) with
  | Ok (p, err) _ => err = Some (TransportError 5) /\ p = Pcf8523_zero
  | Panic => False
  end.
Proof. vm_compute. split; reflexivity. Qed.

Example NewPcf8523_recovers :
  match NewPcf8523 "/dev/i2c-1" 104 (Mock.start (Mock.one_reg 3 x80) []) with
  | Ok (p, err) s' =>
      err = None /\ p = Mock.handle 104 /\ Mock.regs (env s') 3 = x00
  | Panic => False
  end.
Proof. vm_compute. repeat split. Qed.

(** On the register-file device the first read fails: NewPcf8523 returns
    the transport's error, and the bus it opened has not been closed. *)
Lemma NewPcf8523_read_failure_leaves_bus_open :
  match NewPcf8523 "/dev/i2c-1" 104
          (Mock.start (Mock.one_reg 3 x80) [Some (TransportError 5)]) with
  | Ok (p, err) s' =>
      err = Some (TransportError 5)
      /\ trace s' = [EvOpen "/dev/i2c-1"; EvTx 104 [x03] 1]
      /\ existsb is_close (trace s') = false
      /\ Mock.closed (env s') = false
  | Panic => False
  end.
Proof.
  vm_compute. repeat split.
Qed.

(** C9 (amended): NewPcf8523 never closes the bus. On every path, the
    failing ones included, what it asks of the transport is the open
    followed by transactions only; and whenever it returns an error the
    handle it returns is the zero value, which holds no bus. *)
Theorem NewPcf8523_never_closes {T : Transport}
    (path : string) (i2caddr : Z) (s : state T) :
  match NewPcf8523 path i2caddr s with
  | Ok (p, err) s' =>
      (exists evs : list event,
         trace s' = trace s ++ EvOpen path :: evs
         /\ existsb is_close evs = false)
      /\ (err <> None -> p = Pcf8523_zero)
  | Panic => False
  end.
Proof.
  unfold NewPcf8523, ReadReg, WriteReg, Open, Tx, bind, ret. simpl.
  repeat match goal with
         | |- context [i2creg_Open ?a ?b ?c] =>
             destruct (i2creg_Open a b c) as [[?|?] ?]; simpl
         | |- context [Bus_Tx ?a ?b ?c ?d ?e ?f] =>
             destruct (Bus_Tx a b c d e f) as [[? [?|]] ?]; simpl
         | |- context [negb ?x] => destruct (negb x); simpl
         end.
  all: split; [| intros N; try reflexivity; congruence].
  all: repeat rewrite <- app_assoc; simpl.
  all: eexists; split; reflexivity.
Qed.

(** ** Writing the time *)

(** C10: SetTime validates nothing. On a handle that holds a bus it is
    the single transaction writing 0x03 and the seven encoded fields, the
    year byte being encodeBcd(year - 2000) whatever the year is, and the
    error it returns is that transaction's error. *)
Theorem SetTime_error_is_the_transport_error {T : Transport}
    (p : Pcf8523 T) (date : GoTime.Time) (s : state T) (b : BusCloser T) :
  Bus (Device p) = Some b ->
  let utc := GoTime.In date GoTime.UTC in
  let w := [ x03;
             encodeBcd (GoTime.Second utc);
             encodeBcd (GoTime.Minute utc);
             encodeBcd (GoTime.Hour utc);
             encodeBcd (GoTime.Day utc);
             encodeBcd (GoTime.Weekday utc);
             encodeBcd (GoTime.Month utc);
             encodeBcd (GoTime.Year utc - 2000) ] in
  let r := Bus_Tx T b (Addr (Device p)) w 0 (env s) in
  SetTime p date s =
    Ok (snd (fst r)) (mkState (snd r) (trace s ++ [EvTx (Addr (Device p)) w 0])).
Proof.
  intros B. cbv zeta. unfold SetTime, bind, Tx. rewrite B.
  destruct (Bus_Tx T b _ _ 0 (env s)) as [[data [e|]] w']; reflexivity.
Qed.

(** A time in the year 2150: the transaction goes through and the year
    byte is 0xF0. *)
Lemma SetTime_error_is_the_transport_error_witness :
  SetTime (Mock.handle 104)
    (GoTime.mkTime 5700000000 0 (GoTime.FixedZone "CET" 3600))
    (Mock.start (Mock.all_regs x00) [])
  = Ok None
      (mkState (T := Mock.transport)
         (Mock.mkWorld
            (Mock.store (Mock.all_regs x00) 3 [x00; x20; x05; x17; x01; x08; xf0])
            [] None false)
         [EvTx 104 [x03; x00; x20; x05; x17; x01; x08; xf0] 0]).
Proof.
  exact (SetTime_error_is_the_transport_error (Mock.handle 104)
           (GoTime.mkTime 5700000000 0 (GoTime.FixedZone "CET" 3600))
           (Mock.start (Mock.all_regs x00) []) tt eq_refl).
Defined.

Example SetTime_year_2150_fails_only_with_the_bus :
  SetTime (Mock.handle 104)
    (GoTime.mkTime 5700000000 0 GoTime.UTC)
    (Mock.start (Mock.all_regs x00) [Some (TransportError 9)])
  = Ok (Some (TransportError 9))
      (mkState (T := Mock.transport)
         (Mock.mkWorld (Mock.all_regs x00) [] None false)
         [EvTx 104 [x03; x00; x20; x05; x17; x01; x08; xf0] 0]).
Proof. reflexivity. Qed.

(** ** The calendar between 2000 and 2099 *)

Module GoTimeFacts.
Import GoTime.

Example Date_epoch : Date 1970 1 1 0 0 0 0 UTC = mkTime 0 0 UTC.
Proof. reflexivity. Qed.

Example Date_zero : Date 1 1 1 0 0 0 0 UTC = zero.
Proof. reflexivity. Qed.

Example Date_leap_day : Date 2000 2 29 12 0 0 0 UTC = mkTime 951825600 0 UTC.
Proof. reflexivity. Qed.

Example Date_normalises :
  Date 2023 10 32 0 0 80 0 UTC = Date 2023 11 1 0 1 20 0 UTC.
Proof. reflexivity. Qed.

Example fields_of_instant :
  let t := mkTime 4102444799 0 UTC in
  (Year t, Month t, Day t, Hour t, Minute t, Second t, Weekday t)
  = (2099, 12, 31, 23, 59, 59, 4).
Proof. reflexivity. Qed.

Example first_day_of_2000 : civil_from_days 10957 = (2000, 1, 1).
Proof. reflexivity. Qed.

Example last_day_of_2099 : civil_from_days 47481 = (2099, 12, 31).
Proof. reflexivity. Qed.

(** Every day from 2000-01-01 to 2099-12-31 has a date of those years
    from which [days_from_civil] gives the day back. *)
Lemma civil_ok_21st_century (d : Z) : 10957 <= d < 47482 -> civil_ok d = true.
Proof.
  intros R.
  assert (C : check_from 10957 (Z.to_nat 36525) civil_ok = true)
    by (vm_compute; reflexivity).
  apply (check_from_sound _ _ _ C). rewrite Z2Nat.id by lia. lia.
Qed.

Lemma yoe_range (doe : Z) :
  0 <= doe < 146097 ->
  0 <= (doe - doe / 1460 + doe / 36524 - doe / 146096) / 365 <= 399.
Proof.
  intros R. divlia.
Qed.

(** A first, linear estimate of the days whose year is in 2000-2099. *)
Lemma year_of_window (d : Z) :
  2000 <= year_of d <= 2099 -> 10500 <= d < 47600.
Proof.
  unfold year_of, civil_from_days. cbv zeta. simpl fst.
  set (z := d + 719468).
  set (era := z / 146097).
  set (doe := z - era * 146097).
  assert (R : 0 <= doe < 146097) by (subst doe era; divlia).
  set (yoe := (doe - doe / 1460 + doe / 36524 - doe / 146096) / 365).
  assert (Y : 365 * yoe <= doe - doe / 1460 + doe / 36524 - doe / 146096
              < 365 * yoe + 365)
    by (subst yoe; divlia).
  pose proof (yoe_range doe R) as Y'. fold yoe in Y'.
  assert (D : doe = z - era * 146097) by reflexivity.
  assert (Z0 : z = d + 719468) by reflexivity.
  clearbody yoe doe era z.
  destruct (_ <=? 2); intros H; divlia.
Qed.

(** The days whose year is in 2000-2099 are exactly those from
    2000-01-01 (day 10957) to 2099-12-31 (day 47481). *)
Lemma year_of_century (d : Z) :
  2000 <= year_of d <= 2099 -> 10957 <= d < 47482.
Proof.
  intros H.
  pose proof (year_of_window d H) as W.
  assert (R : 10500 <= d < 10500 + Z.of_nat (Z.to_nat 37100)).
  { rewrite Z2Nat.id by lia. lia. }
  assert (C : check_from 10500 (Z.to_nat 37100) year_in_century_ok = true)
    by (vm_compute; reflexivity).
  pose proof (check_from_sound _ _ _ C d R) as K.
  unfold year_in_century_ok in K.
  apply orb_true_iff in K. destruct K as [K | K].
  - apply negb_true_iff, andb_false_iff in K.
    destruct K as [K | K]; apply Z.leb_gt in K; lia.
  - apply andb_true_iff in K. destruct K as [K1 K2].
    apply Z.leb_le in K1. apply Z.ltb_lt in K2. lia.
Qed.

(** [days_from_civil] is linear in the day of the month. *)
Lemma days_from_civil_day (y m d : Z) :
  days_from_civil y m 1 + (d - 1) = days_from_civil y m d.
Proof.
  unfold days_from_civil. cbv zeta. lia.
Qed.

(** For an instant of 2000-2099 in UTC with no fraction of a second,
    [Date] of its fields is the instant, and each field is a two-digit
    number. *)
Lemma Date_of_fields (t : Time) :
  loc t = UTC -> nsec t = 0 -> 2000 <= Year t <= 2099 ->
  Date (Year t) (Month t) (Day t) (Hour t) (Minute t) (Second t) 0 UTC = t
  /\ 0 <= Year t - 2000 < 100
  /\ 0 <= Month t < 100
  /\ 0 <= Day t < 100
  /\ 0 <= Hour t < 100
  /\ 0 <= Minute t < 100
  /\ 0 <= Second t < 60.
Proof.
  destruct t as [u n l]. cbn [loc nsec]. intros -> -> Y.
  unfold Year, Month, Day, Hour, Minute, Second, wall in *.
  cbn [unix loc zone_offset] in *. rewrite Z.add_0_r in *.
  pose proof (year_of_century (u / 86400) Y) as R.
  pose proof (civil_ok_21st_century _ R) as K.
  unfold civil_ok in K.
  destruct (civil_from_days (u / 86400)) as [[y m] d]. cbn [fst snd] in *.
  repeat (apply andb_true_iff in K; destruct K as [K ?]).
  repeat match goal with
         | H : (_ <=? _) = true |- _ => apply Z.leb_le in H
         | H : (_ =? _) = true |- _ => apply Z.eqb_eq in H
         end.
  split; [| divlia].
  unfold Date. cbv zeta. cbn [zone_offset].
  replace ((m - 1) / 12) with 0 by divlia.
  replace ((m - 1) mod 12 + 1) with m by divlia.
  replace (y + 0) with y by lia.
  rewrite days_from_civil_day, K.
  f_equal. divlia.
Qed.

End GoTimeFacts.

(** ** Round trip of the time *)

(** C8: for every time t with no fraction of a second whose year, in UTC,
    is in [2000, 2099], and every transport that echoes back the bytes
    written: SetTime(t) succeeds and GetTime then returns t presented in
    UTC, with no fraction of a second. *)
Theorem SetTime_GetTime_roundtrip {T : Transport} (p : Pcf8523 T)
    (b : BusCloser T) (s : state T) (t : GoTime.Time) :
  Bus (Device p) = Some b ->
  echoes T b (Addr (Device p)) (env s) ->
  GoTime.nsec t = 0 ->
  2000 <= GoTime.Year (GoTime.In t GoTime.UTC) <= 2099 ->
  exists s1 s2 : state T,
    SetTime p t s = Ok None s1
    /\ GetTime p s1 = Ok (GoTime.mkTime (GoTime.unix t) 0 GoTime.UTC, None) s2.
Proof.
  intros B E N Y.
  destruct (GoTimeFacts.Date_of_fields (GoTime.In t GoTime.UTC) eq_refl N Y)
    as (D & Ry & Rm & Rd & Rh & Rmi & Rs).
  unfold SetTime, GetTime, bind, ret, Tx. cbv zeta. rewrite B.
  match goal with
  | |- context [Bus_Tx T b _ (x03 :: ?data) 0 _] =>
      destruct (E x03 data) as (junk & w1 & w2 & W & R)
  end.
  rewrite W. eexists. eexists. split; [reflexivity|].
  cbn [env length] in *. rewrite R.
  change 7%nat with (length [ encodeBcd (GoTime.Second (GoTime.In t GoTime.UTC));
                              encodeBcd (GoTime.Minute (GoTime.In t GoTime.UTC));
                              encodeBcd (GoTime.Hour (GoTime.In t GoTime.UTC));
                              encodeBcd (GoTime.Day (GoTime.In t GoTime.UTC));
                              encodeBcd (GoTime.Weekday (GoTime.In t GoTime.UTC));
                              encodeBcd (GoTime.Month (GoTime.In t GoTime.UTC));
                              encodeBcd (GoTime.Year (GoTime.In t GoTime.UTC) - 2000) ]).
  rewrite fill_exact. cbn [nth length].
  rewrite !parseBcd_encodeBcd_digits by lia.
  replace (Z.land (GoTime.Second (GoTime.In t GoTime.UTC)) 127)
    with (GoTime.Second (GoTime.In t GoTime.UTC)).
  - replace (2000 + (GoTime.Year (GoTime.In t GoTime.UTC) - 2000))
      with (GoTime.Year (GoTime.In t GoTime.UTC)) by lia.
    rewrite D. unfold GoTime.In. rewrite N. reflexivity.
  - change 127 with (Z.ones 7). rewrite Z.land_ones by lia.
    symmetry. apply Z.mod_small. lia.
Qed.

(** *** The register file echoes *)

Lemma Mock_store_below (data : list byte) :
  forall (r : Z -> byte) (a x : Z), x < a -> Mock.store r a data x = r x.
Proof.
  induction data as [|d rest IH]; intros r a x L; simpl.
  - reflexivity.
  - rewrite IH by lia.
    destruct (Z.eqb_spec x a); [lia | reflexivity].
Qed.

Lemma Mock_load_store (data : list byte) :
  forall (r : Z -> byte) (a : Z),
    Mock.load (Mock.store r a data) a (length data) = data.
Proof.
  induction data as [|d rest IH]; intros r a; simpl.
  - reflexivity.
  - rewrite IH, Mock_store_below by lia.
    rewrite Z.eqb_refl. reflexivity.
Qed.

Lemma Mock_echoes (addr : Z) (r : Z -> byte) (oe : option error) (c : bool) :
  echoes Mock.transport tt addr (Mock.mkWorld r [] oe c).
Proof.
  intros reg data. eexists. eexists. eexists.
  split; [reflexivity|]. simpl.
  unfold Mock.tx. simpl.
  rewrite Z.add_0_r, Mock_load_store. reflexivity.
Qed.

(** 2024-02-29 23:59:59 UTC, given in a zone one hour east, on the
    register file. *)
Lemma SetTime_GetTime_roundtrip_witness :
  exists s1 s2 : state Mock.transport,
    SetTime (Mock.handle 104)
      (GoTime.mkTime 1709251199 0 (GoTime.FixedZone "CET" 3600))
      (Mock.start (Mock.all_regs x00) [])
    = Ok None s1
    /\ GetTime (Mock.handle 104) s1
       = Ok (GoTime.mkTime 1709251199 0 GoTime.UTC, None) s2.
Proof.
  apply (SetTime_GetTime_roundtrip (Mock.handle 104) tt
           (Mock.start (Mock.all_regs x00) [])
           (GoTime.mkTime 1709251199 0 (GoTime.FixedZone "CET" 3600))).
  - reflexivity.
  - apply Mock_echoes.
  - reflexivity.
  - vm_compute. split; discriminate.
Defined.

(** C8 as worded, with the year range on the time in its own zone, does
    not hold: 2000-01-01 00:30 in a zone one hour east is in the year
    2000 there and in 1999 in UTC; over the echoing register file SetTime
    writes the year byte 0xFF and GetTime returns a time in 2165. *)
Lemma SetTime_GetTime_roundtrip_fails_on_local_year :
  ~ (forall (T : Transport) (p : Pcf8523 T) (b : BusCloser T) (s : state T)
            (t : GoTime.Time),
       Bus (Device p) = Some b ->
       echoes T b (Addr (Device p)) (env s) ->
       GoTime.nsec t = 0 ->
       2000 <= GoTime.Year t <= 2099 ->
       exists s1 s2 : state T,
         SetTime p t s = Ok None s1
         /\ GetTime p s1
            = Ok (GoTime.mkTime (GoTime.unix t) 0 GoTime.UTC, None) s2).
Proof.
  intros H.
  destruct (H Mock.transport (Mock.handle 104) tt
              (Mock.start (Mock.all_regs x00) [])
              (GoTime.mkTime 946683000 0 (GoTime.FixedZone "CET" 3600))
              eq_refl (Mock_echoes 104 (Mock.all_regs x00) None false)
              eq_refl ltac:(vm_compute; split; discriminate))
    as (s1 & s2 & HS & HG).
  assert (E : SetTime (Mock.handle 104)
                (GoTime.mkTime 946683000 0 (GoTime.FixedZone "CET" 3600))
                (Mock.start (Mock.all_regs x00) [])
              = Ok None
                  (mkState (T := Mock.transport)
                     (Mock.mkWorld
                        (Mock.store (Mock.all_regs x00) 3
                           [x00; x30; x23; x31; x05; x12; xff])
                        [] None false)
                     [EvTx 104 [x03; x00; x30; x23; x31; x05; x12; xff] 0]))
    by reflexivity.
  rewrite E in HS. injection HS as <-.
  vm_compute in HG. discriminate HG.
Qed.

Example SetTime_leap_day_registers :
  match SetTime (Mock.handle 104)
          (GoTime.mkTime 1709251199 0 (GoTime.FixedZone "CET" 3600))
          (Mock.start (Mock.all_regs x00) []) with
  | Ok err s' =>
      err = None
      /\ trace s' = [EvTx 104 [x03; x59; x59; x23; x29; x04; x02; x24] 0]
  | Panic => False
  end.
Proof. vm_compute. split; reflexivity. Qed.

Example GetTime_leap_day_registers :
  match GetTime (Mock.handle 104)
          (Mock.start (Mock.store (Mock.all_regs x00) 3
                         [x59; x59; x23; x29; x04; x02; x24]) []) with
  | Ok (t, err) _ =>
      err = None /\ t = GoTime.mkTime 1709251199 0 GoTime.UTC
  | Panic => False
  end.
Proof. vm_compute. split; reflexivity. Qed.

(** The year is the one of the instant in UTC: 2000-01-01 00:30 in a zone
    one hour east is still 1999 in UTC, its year byte is encodeBcd(-1) =
    0xFF, and what is read back is a time in 2165. *)
Example SetTime_year_is_taken_in_UTC :
  let t := GoTime.mkTime 946683000 0 (GoTime.FixedZone "CET" 3600) in
  GoTime.Year t = 2000
  /\ GoTime.Year (GoTime.In t GoTime.UTC) = 1999
  /\ match SetTime (Mock.handle 104) t (Mock.start (Mock.all_regs x00) []) with
     | Ok _ s1 =>
         Mock.regs (env s1) 9 = xff
         /\ match GetTime (Mock.handle 104) s1 with
            | Ok (t', _) _ => GoTime.Year t' = 2165
            | Panic => False
            end
     | Panic => False
     end.
Proof. vm_compute. repeat split. Qed.

(** * Further properties of the driver *)

(** ** BCD codec *)

(** X1: parseBcd never wraps: for every byte it is the low nibble plus
    ten times the high nibble, whether or not the nibbles are decimal
    digits. *)
Theorem parseBcd_nibbles (b : byte) :
  parseBcd b = u8 b mod 16 + 10 * (u8 b / 16).
Proof.
  destruct b; reflexivity.
Qed.

(** X2: decoding the encoding gives the value back exactly for the
    values 0 to 159: the tens may be any of 0..15, and from 160 on the
    tens no longer fit the high nibble. *)
Theorem parseBcd_encodeBcd_exact_range (v : Z) :
  parseBcd (encodeBcd v) = v <-> 0 <= v <= 159.
Proof.
  split.
  - intros E. pose proof (parseBcd_range (encodeBcd v)) as R. rewrite E in R.
    destruct (Z_le_gt_dec v 159) as [L | G]; [lia|].
    assert (C : check_from 160 6 (fun z => negb (parseBcd (encodeBcd z) =? z)) = true)
      by (vm_compute; reflexivity).
    pose proof (check_from_sound _ _ _ C v ltac:(lia)) as K.
    apply negb_true_iff, Z.eqb_neq in K. contradiction.
  - intros R.
    assert (C : check_from 0 160 (fun z => parseBcd (encodeBcd z) =? z) = true)
      by (vm_compute; reflexivity).
    apply Z.eqb_eq. apply (check_from_sound _ _ _ C). lia.
Qed.

(** X3: encoding what was decoded gives the byte back exactly when its
    low nibble is a decimal digit. *)
Theorem encodeBcd_parseBcd_exact (b : byte) :
  encodeBcd (parseBcd b) = b <-> u8 b mod 16 <= 9.
Proof.
  destruct b; vm_compute; split; intros H; congruence.
Qed.

(** X4: a value of 0..99 is encoded with its tens in the high nibble and
    its units in the low nibble, so both nibbles are decimal digits. *)
Theorem encodeBcd_digits (v : Z) :
  0 <= v <= 99 ->
  u8 (encodeBcd v) = 16 * (v / 10) + v mod 10
  /\ valid_bcd (encodeBcd v) = true.
Proof.
  intros R.
  assert (C : check_from 0 100
                (fun z => (u8 (encodeBcd z) =? 16 * (z / 10) + z mod 10)
                          && valid_bcd (encodeBcd z)) = true)
    by (vm_compute; reflexivity).
  pose proof (check_from_sound _ _ _ C v ltac:(lia)) as K.
  apply andb_true_iff in K. destruct K as [K1 K2].
  apply Z.eqb_eq in K1. split; assumption.
Qed.

Lemma encodeBcd_digits_witness :
  u8 (encodeBcd 59) = 16 * (59 / 10) + 59 mod 10
  /\ valid_bcd (encodeBcd 59) = true.
Proof.
  apply (encodeBcd_digits 59). lia.
Defined.

Example encodeBcd_160_wraps : encodeBcd 160 = x00 /\ parseBcd (encodeBcd 160) = 0.
Proof. split; reflexivity. Qed.

(** ** Register file runs *)

(** On the register file with no scripted failure, a register read gives
    the register and changes nothing but the trace. *)
Lemma Mock_ReadReg (addr : Z) (a : byte) (r : Z -> byte) (oe : option error)
    (c : bool) (tr : list event) :
  ReadReg (Mock.handle addr) a
    (mkState (T := Mock.transport) (Mock.mkWorld r [] oe c) tr)
  = Ok (r (u8 a), None)
       (mkState (T := Mock.transport) (Mock.mkWorld r [] oe c)
          (tr ++ [EvTx addr [a] 1])).
Proof.
  unfold ReadReg, bind, Tx, ret. simpl. rewrite Z.add_0_r. reflexivity.
Qed.

(** A register write replaces that register only. *)
Lemma Mock_WriteReg (addr : Z) (a v : byte) (r : Z -> byte) (oe : option error)
    (c : bool) (tr : list event) :
  WriteReg (Mock.handle addr) a v
    (mkState (T := Mock.transport) (Mock.mkWorld r [] oe c) tr)
  = Ok None
       (mkState (T := Mock.transport)
          (Mock.mkWorld (fun x => if x =? u8 a then v else r x) [] oe c)
          (tr ++ [EvTx addr [a; v] 0])).
Proof.
  reflexivity.
Qed.

(** ** Power management and battery flag *)

Lemma bit2_test (b : byte) :
  negb (Z.land (u8 b) 0x4 =? 0) = Z.testbit (u8 b) 2.
Proof.
  destruct b; reflexivity.
Qed.

(** IsBatteryLow in terms of the one transaction it issues. *)
Lemma IsBatteryLow_runs {T : Transport} (p : Pcf8523 T) (s : state T)
    (b : BusCloser T) :
  Bus (Device p) = Some b ->
  let r := Bus_Tx T b (Addr (Device p)) [x02] 1 (env s) in
  IsBatteryLow p s =
    Ok (match snd (fst r) with
        | Some e => (false, Some e)
        | None => (Z.testbit (u8 (nth 0 (fill 1 (fst (fst r))) x00)) 2, None)
        end)
       (mkState (snd r) (trace s ++ [EvTx (Addr (Device p)) [x02] 1])).
Proof.
  intros B. cbv zeta. unfold IsBatteryLow, bind.
  rewrite (ReadReg_runs p x02 s b B).
  destruct (Bus_Tx T b (Addr (Device p)) [x02] 1 (env s)) as [[data [e|]] w'];
    cbn [fst snd]; unfold ret.
  - reflexivity.
  - rewrite bit2_test. reflexivity.
Qed.

(** X5: on a handle that holds a bus, IsBatteryLow is one read of
    register 0x02 and nothing else; when the read succeeds it returns bit
    2 of the byte, and when the read fails it returns false together with
    the read's error. *)
Theorem IsBatteryLow_reads_bit2 {T : Transport} (p : Pcf8523 T) (s : state T)
    (b : BusCloser T) :
  Bus (Device p) = Some b ->
  let r := Bus_Tx T b (Addr (Device p)) [x02] 1 (env s) in
  IsBatteryLow p s =
    Ok (match snd (fst r) with
        | Some e => (false, Some e)
        | None => (Z.testbit (u8 (nth 0 (fill 1 (fst (fst r))) x00)) 2, None)
        end)
       (mkState (snd r) (trace s ++ [EvTx (Addr (Device p)) [x02] 1])).
Proof.
  exact (IsBatteryLow_runs p s b).
Qed.

Lemma IsBatteryLow_reads_bit2_witness :
  IsBatteryLow (Mock.handle 104) (Mock.start (Mock.one_reg 2 x04) [])
  = Ok (true, None)
       (mkState (T := Mock.transport)
          (Mock.mkWorld (Mock.one_reg 2 x04) [] None false)
          [EvTx 104 [x02] 1]).
Proof.
  exact (IsBatteryLow_reads_bit2 (Mock.handle 104)
           (Mock.start (Mock.one_reg 2 x04) []) tt eq_refl).
Defined.

Example IsBatteryLow_read_failure :
  IsBatteryLow (Mock.handle 104)
    (Mock.start (Mock.one_reg 2 x04) [Some (TransportError 3)])
  = Ok (false, Some (TransportError 3))
       (mkState (T := Mock.transport)
          (Mock.mkWorld (Mock.one_reg 2 x04) [] None false)
          [EvTx 104 [x02] 1]).
Proof. reflexivity. Qed.

Lemma app_one_neq {A : Type} (l : list A) (x : A) : l ++ [x] <> l.
Proof.
  intros E. apply (f_equal (@length A)) in E.
  rewrite length_app in E. simpl in E. lia.
Qed.

(** The packed value and the guard, by cases on the arguments. *)
Lemma ConfigurePowerManagement_cases {T : Transport} (p : Pcf8523 T)
    (switchover directSwitchingMode batteryLowDetection : bool) (s : state T) :
  ConfigurePowerManagement p switchover directSwitchingMode batteryLowDetection s
  = if negb switchover && negb directSwitchingMode && negb batteryLowDetection
    then Ok (Some (ErrorsNew "Invalid power management configuration"%string)) s
    else WriteReg p x02
           (to_byte (Z.b2z directSwitchingMode + 2 * Z.b2z (negb switchover)
                     + 4 * Z.b2z (negb batteryLowDetection))) s.
Proof.
  destruct switchover, directSwitchingMode, batteryLowDetection; reflexivity.
Qed.

(** X6: on a handle that holds a bus, ConfigurePowerManagement issues no
    transaction exactly when all three arguments are false, and then it
    returns the invalid-configuration error in the unchanged state; for
    every other triple it issues the one write to register 0x02. *)
Theorem ConfigurePowerManagement_rejects_only_all_false {T : Transport}
    (p : Pcf8523 T) (switchover directSwitchingMode batteryLowDetection : bool)
    (s : state T) (b : BusCloser T) :
  Bus (Device p) = Some b ->
  exists (r : option error) (s' : state T),
    ConfigurePowerManagement p switchover directSwitchingMode batteryLowDetection s
    = Ok r s'
    /\ (trace s' = trace s
        <-> switchover = false /\ directSwitchingMode = false
            /\ batteryLowDetection = false)
    /\ (trace s' = trace s ->
        r = Some (ErrorsNew "Invalid power management configuration"%string)
        /\ s' = s)
    /\ (trace s' <> trace s ->
        exists v : byte,
          trace s' = trace s ++ [EvTx (Addr (Device p)) [x02; v] 0]
          /\ Z.testbit (u8 v) 0 = directSwitchingMode
          /\ Z.testbit (u8 v) 1 = negb switchover
          /\ Z.testbit (u8 v) 2 = negb batteryLowDetection).
Proof.
  intros B.
  rewrite ConfigurePowerManagement_cases.
  destruct switchover, directSwitchingMode, batteryLowDetection;
    cbn [negb andb];
    try (rewrite (WriteReg_runs p _ _ s b B);
         destruct (Bus_Tx T b (Addr (Device p)) _ 0 (env s)) as [[data err] w'];
         eexists; eexists; split; [reflexivity|]; cbn [trace];
         split; [split; [intros E; exfalso; exact (app_one_neq _ _ E)
                        | intros (? & ? & ?); discriminate]|];
         split; [intros E; exfalso; exact (app_one_neq _ _ E)|];
         intros _; eexists; split; [reflexivity|]; repeat split).
  eexists; eexists; split; [reflexivity|].
  split; [split; [intros _; repeat split | reflexivity]|].
  split; [intros _; split; reflexivity | intros N; exfalso; apply N; reflexivity].
Qed.

Lemma ConfigurePowerManagement_rejects_only_all_false_witness :
  exists (r : option error) (s' : state Mock.transport),
    ConfigurePowerManagement (Mock.handle 104) false true true
      (Mock.start (Mock.all_regs x00) [])
    = Ok r s'
    /\ (trace s' = trace (Mock.start (Mock.all_regs x00) [])
        <-> false = false /\ true = false /\ true = false)
    /\ (trace s' = trace (Mock.start (Mock.all_regs x00) []) ->
        r = Some (ErrorsNew "Invalid power management configuration"%string)
        /\ s' = Mock.start (Mock.all_regs x00) [])
    /\ (trace s' <> trace (Mock.start (Mock.all_regs x00) []) ->
        exists v : byte,
          trace s' = trace (Mock.start (Mock.all_regs x00) [])
                     ++ [EvTx (Addr (Device (Mock.handle 104))) [x02; v] 0]
          /\ Z.testbit (u8 v) 0 = true
          /\ Z.testbit (u8 v) 1 = negb false
          /\ Z.testbit (u8 v) 2 = negb true).
Proof.
  apply (ConfigurePowerManagement_rejects_only_all_false (Mock.handle 104)
           false true true (Mock.start (Mock.all_regs x00) []) tt).
  reflexivity.
Defined.

(** X7: over a transport that echoes, a configuration that is written is
    read back by IsBatteryLow as "battery low" exactly when battery-low
    detection was switched off: both use bit 2 of register 0x02. *)
Theorem IsBatteryLow_after_ConfigurePowerManagement {T : Transport}
    (p : Pcf8523 T) (switchover directSwitchingMode batteryLowDetection : bool)
    (s : state T) (b : BusCloser T) :
  Bus (Device p) = Some b ->
  echoes T b (Addr (Device p)) (env s) ->
  switchover || directSwitchingMode || batteryLowDetection = true ->
  exists s1 s2 : state T,
    ConfigurePowerManagement p switchover directSwitchingMode batteryLowDetection s
    = Ok None s1
    /\ IsBatteryLow p s1 = Ok (negb batteryLowDetection, None) s2.
Proof.
  intros B E N.
  rewrite ConfigurePowerManagement_cases.
  destruct switchover, directSwitchingMode, batteryLowDetection;
    try discriminate N; cbn [negb andb];
    rewrite (WriteReg_runs p _ _ s b B);
    match goal with
    | |- context [Bus_Tx T b _ [x02; ?v] 0 _] =>
        destruct (E x02 [v]) as (junk & w1 & w2 & W & R)
    end;
    rewrite W; eexists; eexists; (split; [reflexivity|]);
    rewrite (IsBatteryLow_runs p _ b B); cbn [env length] in *;
    rewrite R; reflexivity.
Qed.

(** The configuration of the example program: switchover and battery-low
    detection on; the battery then reads as not low. *)
Lemma IsBatteryLow_after_ConfigurePowerManagement_witness :
  exists s1 s2 : state Mock.transport,
    ConfigurePowerManagement (Mock.handle 104) true false true
      (Mock.start (Mock.all_regs xff) [])
    = Ok None s1
    /\ IsBatteryLow (Mock.handle 104) s1 = Ok (negb true, None) s2.
Proof.
  apply (IsBatteryLow_after_ConfigurePowerManagement (Mock.handle 104)
           true false true (Mock.start (Mock.all_regs xff) []) tt).
  - reflexivity.
  - apply Mock_echoes.
  - reflexivity.
Defined.

(** ** Frequency correction *)

(** The conversion gives an [int8] on every target. *)
Lemma float64_to_int8_range (oob : float -> Z) (f : float) :
  -128 <= GoFloat.float64_to_int8 oob f <= 127.
Proof.
  unfold GoFloat.float64_to_int8.
  destruct (GoFloat.trunc f) as [z|]; [|apply to_int8_range].
  destruct ((-128 <=? z) && (z <=? 127)) eqn:E; [|apply to_int8_range].
  apply andb_true_iff in E. destruct E as [E1 E2].
  apply Z.leb_le in E1. apply Z.leb_le in E2. lia.
Qed.

(** A correction of [-64, 63], written as AddTimeCorrection writes it and
    read as getCorrection reads it, is the same correction. *)
Lemma correction_byte_roundtrip (nc : Z) :
  -64 <= nc <= 63 ->
  let c := u8 (to_byte (Z.land (u8 (to_byte nc)) 0x7F)) in
  to_int8 (if negb (Z.land c 0x40 =? 0) then Z.lor c 0x80 else Z.land c 0x7F) = nc.
Proof.
  intros R. cbv zeta.
  assert (C : check_from (-64) 128
                (fun z =>
                   let c := u8 (to_byte (Z.land (u8 (to_byte z)) 0x7F)) in
                   to_int8 (if negb (Z.land c 0x40 =? 0)
                            then Z.lor c 0x80 else Z.land c 0x7F) =? z) = true)
    by (vm_compute; reflexivity).
  pose proof (check_from_sound _ _ _ C nc ltac:(lia)) as K.
  cbv zeta in K. apply Z.eqb_eq in K. exact K.
Qed.

(** What getCorrection makes of a register byte lies in [-64, 63]. *)
Lemma correction_of_byte_range (b : byte) :
  let c := u8 b in
  -64 <= to_int8 (if negb (Z.land c 0x40 =? 0) then Z.lor c 0x80 else Z.land c 0x7F)
  <= 63.
Proof.
  destruct b; vm_compute; split; discriminate.
Qed.

(** getCorrection on the register file. *)
Lemma Mock_getCorrection (addr : Z) (r : Z -> byte) (oe : option error)
    (c : bool) (tr : list event) :
  getCorrection (Mock.handle addr)
    (mkState (T := Mock.transport) (Mock.mkWorld r [] oe c) tr)
  = Ok (let v := u8 (r 14) in
        to_int8 (if negb (Z.land v 0x40 =? 0) then Z.lor v 0x80 else Z.land v 0x7F),
        None)
       (mkState (T := Mock.transport) (Mock.mkWorld r [] oe c)
          (tr ++ [EvTx addr [x0e] 1])).
Proof.
  unfold getCorrection, bind. rewrite Mock_ReadReg. reflexivity.
Qed.

(** X8: when the read of register 0x0E fails, AddTimeCorrection returns
    the read's error and writes nothing: the read is its only
    transaction. *)
Theorem AddTimeCorrection_read_failure {T : Transport} (oob : float -> Z)
    (p : Pcf8523 T) (secondsPerDay : float) (s : state T) (b : BusCloser T)
    (data : list byte) (e : error) (w' : World T) :
  Bus (Device p) = Some b ->
  Bus_Tx T b (Addr (Device p)) [x0e] 1 (env s) = ((data, Some e), w') ->
  AddTimeCorrection oob p secondsPerDay s
  = Ok (Some e) (mkState w' (trace s ++ [EvTx (Addr (Device p)) [x0e] 1])).
Proof.
  intros B R.
  unfold AddTimeCorrection, getCorrection, bind. cbv zeta.
  rewrite (ReadReg_runs p x0e s b B), R. reflexivity.
Qed.

Lemma AddTimeCorrection_read_failure_witness :
  AddTimeCorrection Mock.oob (Mock.handle 104) 10%float
    (Mock.start (Mock.one_reg 14 x35) [Some (TransportError 7)])
  = Ok (Some (TransportError 7))
       (mkState (T := Mock.transport)
          (Mock.mkWorld (Mock.one_reg 14 x35) [] None false)
          [EvTx 104 [x0e] 1]).
Proof.
  exact (AddTimeCorrection_read_failure Mock.oob (Mock.handle 104) 10%float
           (Mock.start (Mock.one_reg 14 x35) [Some (TransportError 7)]) tt
           [] (TransportError 7)
           (Mock.mkWorld (Mock.one_reg 14 x35) [] None false)
           eq_refl eq_refl).
Defined.

(** X9: whatever the register held and whatever the input is, the one
    write AddTimeCorrection issues after a successful read goes to
    register 0x0E with bit 7 clear: the mode bit stays at the two-hour
    mode. *)
Theorem AddTimeCorrection_keeps_two_hour_mode {T : Transport} (oob : float -> Z)
    (p : Pcf8523 T) (secondsPerDay : float) (s : state T) (b : BusCloser T)
    (data : list byte) (w' : World T) :
  Bus (Device p) = Some b ->
  Bus_Tx T b (Addr (Device p)) [x0e] 1 (env s) = ((data, None), w') ->
  exists (v : byte) (r : option error) (s' : state T),
    AddTimeCorrection oob p secondsPerDay s = Ok r s'
    /\ trace s' = trace s ++ [EvTx (Addr (Device p)) [x0e] 1;
                              EvTx (Addr (Device p)) [x0e; v] 0]
    /\ Z.testbit (u8 v) 7 = false.
Proof.
  intros B R.
  unfold AddTimeCorrection, getCorrection, bind. cbv zeta.
  rewrite (ReadReg_runs p x0e s b B), R. cbv iota beta. unfold ret.
  match goal with
  | |- context [WriteReg p x0e ?v ?st] =>
      rewrite (WriteReg_runs p x0e v st b B);
      destruct (Bus_Tx T b (Addr (Device p)) [x0e; v] 0 (env st)) as [[junk err] w2];
      exists v
  end.
  eexists. eexists. split; [reflexivity|]. cbn [trace].
  split; [rewrite <- app_assoc; reflexivity|].
  match goal with
  | |- Z.testbit (u8 (to_byte (Z.land (u8 (to_byte ?nc)) 127))) 7 = false =>
      pose proof (AddTimeCorrection_written_byte nc) as W;
      set (x := u8 (to_byte (Z.land (u8 (to_byte nc)) 127))) in *
  end.
  destruct (Z.eq_dec x 0) as [-> | NZ]; [reflexivity|].
  apply Z.bits_above_log2; [lia|].
  apply Z.log2_lt_pow2; [lia|]. change (2 ^ 7) with 128. lia.
Qed.

Lemma AddTimeCorrection_keeps_two_hour_mode_witness :
  exists (v : byte) (r : option error) (s' : state Mock.transport),
    AddTimeCorrection Mock.oob (Mock.handle 104) (-100)%float
      (Mock.start (Mock.one_reg 14 xff) []) = Ok r s'
    /\ trace s' = trace (Mock.start (Mock.one_reg 14 xff) [])
                  ++ [EvTx (Addr (Device (Mock.handle 104))) [x0e] 1;
                      EvTx (Addr (Device (Mock.handle 104))) [x0e; v] 0]
    /\ Z.testbit (u8 v) 7 = false.
Proof.
  apply (AddTimeCorrection_keeps_two_hour_mode Mock.oob (Mock.handle 104)
           (-100)%float (Mock.start (Mock.one_reg 14 xff) []) tt
           [xff] (Mock.mkWorld (Mock.one_reg 14 xff) [] None false)).
  - reflexivity.
  - reflexivity.
Defined.

(** On the register file: the correction read back after
    AddTimeCorrection, when the int8 sum does not wrap. *)
Lemma Mock_AddTimeCorrection_no_wrap (oob : float -> Z)
    (secondsPerDay : float) (addr : Z) (r : Z -> byte) (oe : option error)
    (c : bool) (tr : list event) (cur : Z) (s1 : state Mock.transport) :
  let s := mkState (T := Mock.transport) (Mock.mkWorld r [] oe c) tr in
  let offset :=
    GoFloat.float64_to_int8 oob (secondsPerDay * 11.57407 / 4.34)%float in
  getCorrection (Mock.handle addr) s = Ok (cur, None) s1 ->
  -128 <= cur + offset <= 127 ->
  exists s2 s3 : state Mock.transport,
    AddTimeCorrection oob (Mock.handle addr) secondsPerDay s = Ok None s2
    /\ getCorrection (Mock.handle addr) s2
       = Ok (Z.max (-64) (Z.min 63 (cur + offset)), None) s3.
Proof.
  cbv zeta. intros G S.
  rewrite (AddTimeCorrection_runs oob _ secondsPerDay _ s1 cur G). cbv zeta.
  rewrite Mock_getCorrection in G. injection G as Ec Es. subst s1.
  assert (Rc : -128 <= cur <= 127).
  { pose proof (correction_of_byte_range (r 14)) as Rc. cbv zeta in Rc.
    cbv zeta in Ec. rewrite Ec in Rc. lia. }
  pose proof (clamp_without_overflow cur _ Rc S) as K. cbv zeta in K.
  rewrite K. rewrite Mock_WriteReg.
  eexists. eexists. split; [reflexivity|].
  rewrite Mock_getCorrection. cbv zeta.
  change (14 =? u8 x0e) with true. cbv iota.
  pose proof (correction_byte_roundtrip (Z.max (-64) (Z.min 63 (cur + GoFloat.float64_to_int8 oob (secondsPerDay * 11.57407 / 4.34)%float))) ltac:(lia)) as RT.
  cbv zeta in RT. rewrite RT. reflexivity.
Qed.

(** X10: on the register file, when the sum of the stored correction and
    the delta fits int8, AddTimeCorrection leaves the register holding
    that sum saturated into [-64, 63], as getCorrection reads it. *)
Theorem AddTimeCorrection_saturates_when_no_wrap (oob : float -> Z)
    (secondsPerDay : float) (addr : Z) (r : Z -> byte) (oe : option error)
    (c : bool) (tr : list event) (cur : Z) (s1 : state Mock.transport) :
  let s := mkState (T := Mock.transport) (Mock.mkWorld r [] oe c) tr in
  let offset :=
    GoFloat.float64_to_int8 oob (secondsPerDay * 11.57407 / 4.34)%float in
  getCorrection (Mock.handle addr) s = Ok (cur, None) s1 ->
  -128 <= cur + offset <= 127 ->
  exists s2 s3 : state Mock.transport,
    AddTimeCorrection oob (Mock.handle addr) secondsPerDay s = Ok None s2
    /\ getCorrection (Mock.handle addr) s2
       = Ok (Z.max (-64) (Z.min 63 (cur + offset)), None) s3.
Proof.
  exact (Mock_AddTimeCorrection_no_wrap oob secondsPerDay addr r oe c tr cur s1).
Qed.

(** The example of the function's comment: 10 seconds per day (26 LSB)
    on a register at 53 LSB stops at 63. *)
Lemma AddTimeCorrection_saturates_when_no_wrap_witness :
  exists s2 s3 : state Mock.transport,
    AddTimeCorrection Mock.oob (Mock.handle 104) 10%float
      (mkState (T := Mock.transport)
         (Mock.mkWorld (Mock.one_reg 14 x35) [] None false) []) = Ok None s2
    /\ getCorrection (Mock.handle 104) s2
       = Ok (Z.max (-64) (Z.min 63 (53 + 26)), None) s3.
Proof.
  apply (AddTimeCorrection_saturates_when_no_wrap Mock.oob 10%float 104
           (Mock.one_reg 14 x35) None false [] 53
           (mkState (T := Mock.transport)
              (Mock.mkWorld (Mock.one_reg 14 x35) [] None false)
              [EvTx 104 [x0e] 1])).
  - reflexivity.
  - vm_compute. split; discriminate.
Defined.

(** X11: on the register file, ResetTimeCorrection followed by
    AddTimeCorrection sets the correction to the delta saturated into
    [-64, 63], for every input and whatever the register held. *)
Theorem AddTimeCorrection_after_reset (oob : float -> Z)
    (secondsPerDay : float) (addr : Z) (r : Z -> byte) (oe : option error)
    (c : bool) (tr : list event) :
  let s := mkState (T := Mock.transport) (Mock.mkWorld r [] oe c) tr in
  let offset :=
    GoFloat.float64_to_int8 oob (secondsPerDay * 11.57407 / 4.34)%float in
  exists s1 s2 s3 : state Mock.transport,
    ResetTimeCorrection (Mock.handle addr) s = Ok None s1
    /\ AddTimeCorrection oob (Mock.handle addr) secondsPerDay s1 = Ok None s2
    /\ getCorrection (Mock.handle addr) s2
       = Ok (Z.max (-64) (Z.min 63 offset), None) s3.
Proof.
  cbv zeta. unfold ResetTimeCorrection. rewrite Mock_WriteReg.
  pose proof (float64_to_int8_range oob (secondsPerDay * 11.57407 / 4.34)%float) as Ro.
  set (r' := fun x : Z => if x =? u8 x0e then x00 else r x).
  set (tr' := tr ++ [EvTx addr [x0e; x00] 0]).
  assert (G0 : getCorrection (Mock.handle addr)
                 (mkState (T := Mock.transport) (Mock.mkWorld r' [] oe c) tr')
               = Ok (0, None)
                    (mkState (T := Mock.transport) (Mock.mkWorld r' [] oe c)
                       (tr' ++ [EvTx addr [x0e] 1])))
    by (rewrite Mock_getCorrection; reflexivity).
  destruct (Mock_AddTimeCorrection_no_wrap oob secondsPerDay addr
              r' oe c tr' 0 _ G0 ltac:(lia)) as (s2 & s3 & A & G).
  eexists. exists s2, s3.
  split; [reflexivity|]. split; [exact A|]. rewrite G. reflexivity.
Qed.

(** ** Reading valid registers *)

(** Every date of the years 2000-2165 (the years GetTime can produce
    from a year byte) comes back from its day number. *)
Lemma date_roundtrip_checked (y m d : Z) :
  2000 <= y <= 2165 -> valid_date y m d = true ->
  GoTime.civil_from_days (GoTime.days_from_civil y m d) = (y, m, d).
Proof.
  intros Ry V.
  assert (C : check_from 2000 166
                (fun y => check_from 1 12
                   (fun m => check_from 1 31
                      (fun d => date_roundtrip_ok y m d))) = true)
    by (vm_compute; reflexivity).
  assert (B : 1 <= m <= 12 /\ 1 <= d <= 31).
  { unfold valid_date in V.
    repeat (apply andb_true_iff in V; destruct V as [V ?]).
    repeat match goal with
           | H : (_ <=? _) = true |- _ => apply Z.leb_le in H
           end.
    assert (days_in_month y m <= 31)
      by (unfold days_in_month;
          repeat match goal with |- context [if ?c then _ else _] => destruct c end;
          lia).
    lia. }
  pose proof (check_from_sound _ _ _ C y ltac:(lia)) as Cy.
  pose proof (check_from_sound _ _ _ Cy m ltac:(lia)) as Cm.
  pose proof (check_from_sound _ _ _ Cm d ltac:(lia)) as Cd.
  unfold date_roundtrip_ok in Cd. rewrite V in Cd. cbn [negb orb] in Cd.
  destruct (GoTime.civil_from_days (GoTime.days_from_civil y m d)) as [[y' m'] d'].
  repeat (apply andb_true_iff in Cd; destruct Cd as [Cd ?]).
  repeat match goal with
         | H : (_ =? _) = true |- _ => apply Z.eqb_eq in H
         end.
  congruence.
Qed.

(** The fields of a time made by [Date] from a valid date and time of
    day are the arguments. *)
Lemma fields_of_Date (y m d h mi sec : Z) :
  2000 <= y <= 2165 -> valid_date y m d = true ->
  0 <= h < 24 -> 0 <= mi < 60 -> 0 <= sec < 60 ->
  let t := GoTime.Date y m d h mi sec 0 GoTime.UTC in
  GoTime.loc t = GoTime.UTC /\ GoTime.nsec t = 0
  /\ GoTime.Year t = y /\ GoTime.Month t = m /\ GoTime.Day t = d
  /\ GoTime.Hour t = h /\ GoTime.Minute t = mi /\ GoTime.Second t = sec.
Proof.
  intros Ry V Rh Rmi Rs. cbv zeta.
  pose proof (date_roundtrip_checked y m d Ry V) as RT.
  assert (Bm : 1 <= m <= 12).
  { unfold valid_date in V.
    repeat (apply andb_true_iff in V; destruct V as [V ?]).
    repeat match goal with
           | H : (_ <=? _) = true |- _ => apply Z.leb_le in H
           end.
    lia. }
  unfold GoTime.Year, GoTime.Month, GoTime.Day, GoTime.Hour, GoTime.Minute,
    GoTime.Second, GoTime.wall, GoTime.Date.
  cbv zeta. cbn [GoTime.unix GoTime.loc GoTime.nsec GoTime.zone_offset].
  replace ((m - 1) / 12) with 0 by divlia.
  replace ((m - 1) mod 12 + 1) with m by divlia.
  replace (y + 0) with y by lia.
  rewrite GoTimeFacts.days_from_civil_day.
  set (D := GoTime.days_from_civil y m d) in *.
  set (w := D * 86400 + h * 3600 + mi * 60 + sec + 0 / 1000000000 - 0 + 0).
  assert (W : w = D * 86400 + (h * 3600 + mi * 60 + sec)) by (subst w; divlia).
  assert (Q : w / 86400 = D) by (rewrite W; divlia).
  rewrite Q, RT. cbn [fst snd].
  repeat split; rewrite W; divlia.
Qed.

(** X12: when the seven registers hold a valid date of the calendar and a
    time of day in range (so the flag bit of the seconds byte is clear),
    GetTime returns the UTC time with exactly those fields and no
    fraction of a second, the year being 2000 plus the year byte; the
    weekday byte plays no part. *)
Theorem GetTime_decodes_valid_registers {T : Transport} (p : Pcf8523 T)
    (s : state T) (b : BusCloser T) (w' : World T)
    (b0 b1 b2 b3 b4 b5 b6 : byte) :
  Bus (Device p) = Some b ->
  Bus_Tx T b (Addr (Device p)) [x03] 7 (env s)
  = (([b0; b1; b2; b3; b4; b5; b6], None), w') ->
  parseBcd b0 < 60 -> parseBcd b1 < 60 -> parseBcd b2 < 24 ->
  valid_date (2000 + parseBcd b6) (parseBcd b5) (parseBcd b3) = true ->
  exists t : GoTime.Time,
    GetTime p s
    = Ok (t, None) (mkState w' (trace s ++ [EvTx (Addr (Device p)) [x03] 7]))
    /\ GoTime.loc t = GoTime.UTC /\ GoTime.nsec t = 0
    /\ GoTime.Year t = 2000 + parseBcd b6
    /\ GoTime.Month t = parseBcd b5
    /\ GoTime.Day t = parseBcd b3
    /\ GoTime.Hour t = parseBcd b2
    /\ GoTime.Minute t = parseBcd b1
    /\ GoTime.Second t = parseBcd b0.
Proof.
  intros B R S0 S1 S2 V.
  unfold GetTime, bind, Tx, ret. rewrite B, R.
  change (fill 7 [b0; b1; b2; b3; b4; b5; b6]) with [b0; b1; b2; b3; b4; b5; b6].
  cbn [nth].
  pose proof (parseBcd_range b0). pose proof (parseBcd_range b1).
  pose proof (parseBcd_range b2). pose proof (parseBcd_range b6).
  replace (Z.land (parseBcd b0) 127) with (parseBcd b0).
  - eexists. split; [reflexivity|].
    apply (fields_of_Date (2000 + parseBcd b6) (parseBcd b5) (parseBcd b3)
             (parseBcd b2) (parseBcd b1) (parseBcd b0)); try lia; exact V.
  - change 127 with (Z.ones 7). rewrite Z.land_ones by lia.
    symmetry. apply Z.mod_small. lia.
Qed.

(** 2024-02-29 23:59:59, with a weekday byte that is not a weekday. *)
Lemma GetTime_decodes_valid_registers_witness :
  exists t : GoTime.Time,
    GetTime (Mock.handle 104)
      (Mock.start (Mock.store (Mock.all_regs x00) 3
                     [x59; x59; x23; x29; xee; x02; x24]) [])
    = Ok (t, None)
         (mkState (T := Mock.transport)
            (Mock.mkWorld (Mock.store (Mock.all_regs x00) 3
                             [x59; x59; x23; x29; xee; x02; x24]) [] None false)
            (trace (Mock.start (Mock.store (Mock.all_regs x00) 3
                                  [x59; x59; x23; x29; xee; x02; x24]) [])
             ++ [EvTx (Addr (Device (Mock.handle 104))) [x03] 7]))
    /\ GoTime.loc t = GoTime.UTC /\ GoTime.nsec t = 0
    /\ GoTime.Year t = 2000 + parseBcd x24
    /\ GoTime.Month t = parseBcd x02
    /\ GoTime.Day t = parseBcd x29
    /\ GoTime.Hour t = parseBcd x23
    /\ GoTime.Minute t = parseBcd x59
    /\ GoTime.Second t = parseBcd x59.
Proof.
  apply (GetTime_decodes_valid_registers (Mock.handle 104)
           (Mock.start (Mock.store (Mock.all_regs x00) 3
                          [x59; x59; x23; x29; xee; x02; x24]) []) tt
           (Mock.mkWorld (Mock.store (Mock.all_regs x00) 3
                            [x59; x59; x23; x29; xee; x02; x24]) [] None false)
           x59 x59 x23 x29 xee x02 x24).
  - reflexivity.
  - reflexivity.
  - vm_compute. reflexivity.
  - vm_compute. reflexivity.
  - vm_compute. reflexivity.
  - vm_compute. reflexivity.
Defined.

(** A date that is not on the calendar is moved on by time.Date: the
    registers 30 February 2023 read as 2 March. *)
Example GetTime_february_30 :
  match GetTime (Mock.handle 104)
          (Mock.start (Mock.store (Mock.all_regs x00) 3
                         [x00; x00; x00; x30; x00; x02; x23]) []) with
  | Ok (t, _) _ => (GoTime.Year t, GoTime.Month t, GoTime.Day t) = (2023, 3, 2)
  | Panic => False
  end.
Proof. vm_compute. reflexivity. Qed.

(** ** Writing the time *)

(** A value below 80 is encoded with bit 7 clear. *)
Lemma encodeBcd_flag_clear (v : Z) :
  0 <= v < 80 -> Z.testbit (u8 (encodeBcd v)) 7 = false.
Proof.
  intros R.
  assert (C : check_from 0 80
                (fun z => negb (Z.testbit (u8 (encodeBcd z)) 7)) = true)
    by (vm_compute; reflexivity).
  pose proof (check_from_sound _ _ _ C v ltac:(lia)) as K.
  apply negb_true_iff in K. exact K.
Qed.

(** X13: for every time, of whatever year, SetTime writes in one
    transaction a seconds byte with bit 7 clear (so the write clears the
    oscillator-stop flag), and the seconds, minutes, hours and weekday
    bytes are the BCD of those fields of the time in UTC. *)
Theorem SetTime_time_of_day_bytes {T : Transport} (p : Pcf8523 T)
    (date : GoTime.Time) (s : state T) (b : BusCloser T) :
  Bus (Device p) = Some b ->
  let utc := GoTime.In date GoTime.UTC in
  exists (b0 b1 b2 b3 b4 b5 b6 : byte) (r : option error) (s' : state T),
    SetTime p date s = Ok r s'
    /\ trace s'
       = trace s ++ [EvTx (Addr (Device p)) [x03; b0; b1; b2; b3; b4; b5; b6] 0]
    /\ Z.testbit (u8 b0) 7 = false
    /\ parseBcd b0 = GoTime.Second utc /\ valid_bcd b0 = true
    /\ parseBcd b1 = GoTime.Minute utc /\ valid_bcd b1 = true
    /\ parseBcd b2 = GoTime.Hour utc /\ valid_bcd b2 = true
    /\ parseBcd b4 = GoTime.Weekday utc /\ valid_bcd b4 = true.
Proof.
  intros B. cbv zeta. unfold SetTime, bind, Tx. cbv zeta. rewrite B.
  destruct (Bus_Tx T b _ _ 0 (env s)) as [[data err] w'].
  do 7 eexists. exists err. eexists.
  split; [destruct err; reflexivity|]. cbn [trace].
  split; [reflexivity|].
  set (u := GoTime.In date GoTime.UTC).
  assert (Rs : 0 <= GoTime.Second u < 60) by (unfold GoTime.Second; divlia).
  assert (Rm : 0 <= GoTime.Minute u < 60) by (unfold GoTime.Minute; divlia).
  assert (Rh : 0 <= GoTime.Hour u < 24) by (unfold GoTime.Hour; divlia).
  assert (Rw : 0 <= GoTime.Weekday u < 7) by (unfold GoTime.Weekday; divlia).
  rewrite !parseBcd_encodeBcd_digits by lia.
  split; [apply encodeBcd_flag_clear; lia|].
  repeat split;
    match goal with
    | |- valid_bcd (encodeBcd ?v) = true =>
        assert (C : check_from 0 60 (fun z => valid_bcd (encodeBcd z)) = true)
          by (vm_compute; reflexivity);
        apply (check_from_sound _ _ _ C v); lia
    end.
Qed.

(** A time in the year 1969. *)
Lemma SetTime_time_of_day_bytes_witness :
  exists (b0 b1 b2 b3 b4 b5 b6 : byte) (r : option error)
         (s' : state Mock.transport),
    SetTime (Mock.handle 104) (GoTime.mkTime (-1) 0 GoTime.UTC)
      (Mock.start (Mock.all_regs x00) []) = Ok r s'
    /\ trace s'
       = trace (Mock.start (Mock.all_regs x00) [])
         ++ [EvTx (Addr (Device (Mock.handle 104)))
               [x03; b0; b1; b2; b3; b4; b5; b6] 0]
    /\ Z.testbit (u8 b0) 7 = false
    /\ parseBcd b0
       = GoTime.Second (GoTime.In (GoTime.mkTime (-1) 0 GoTime.UTC) GoTime.UTC)
    /\ valid_bcd b0 = true
    /\ parseBcd b1
       = GoTime.Minute (GoTime.In (GoTime.mkTime (-1) 0 GoTime.UTC) GoTime.UTC)
    /\ valid_bcd b1 = true
    /\ parseBcd b2
       = GoTime.Hour (GoTime.In (GoTime.mkTime (-1) 0 GoTime.UTC) GoTime.UTC)
    /\ valid_bcd b2 = true
    /\ parseBcd b4
       = GoTime.Weekday (GoTime.In (GoTime.mkTime (-1) 0 GoTime.UTC) GoTime.UTC)
    /\ valid_bcd b4 = true.
Proof.
  apply (SetTime_time_of_day_bytes (Mock.handle 104)
           (GoTime.mkTime (-1) 0 GoTime.UTC)
           (Mock.start (Mock.all_regs x00) []) tt).
  reflexivity.
Defined.

(** ** The years the round trip reaches *)

Lemma civil_ok_wide_checked (d : Z) : 10957 <= d < 69396 -> civil_ok_wide d = true.
Proof.
  intros R.
  assert (C : check_from 10957 (Z.to_nat 58439) civil_ok_wide = true)
    by (vm_compute; reflexivity).
  apply (check_from_sound _ _ _ C). rewrite Z2Nat.id by lia. lia.
Qed.

Lemma year_of_window_wide (d : Z) :
  2000 <= GoTime.year_of d <= 2159 -> 10500 <= d < 69500.
Proof.
  unfold GoTime.year_of, GoTime.civil_from_days. cbv zeta. simpl fst.
  set (z := d + 719468).
  set (era := z / 146097).
  set (doe := z - era * 146097).
  assert (R : 0 <= doe < 146097) by (subst doe era; divlia).
  set (yoe := (doe - doe / 1460 + doe / 36524 - doe / 146096) / 365).
  assert (Y : 365 * yoe <= doe - doe / 1460 + doe / 36524 - doe / 146096
              < 365 * yoe + 365)
    by (subst yoe; divlia).
  pose proof (GoTimeFacts.yoe_range doe R) as Y'. fold yoe in Y'.
  assert (D : doe = z - era * 146097) by reflexivity.
  assert (Z0 : z = d + 719468) by reflexivity.
  clearbody yoe doe era z.
  destruct (_ <=? 2); intros H; divlia.
Qed.

Lemma year_of_wide (d : Z) :
  2000 <= GoTime.year_of d <= 2159 -> 10957 <= d < 69396.
Proof.
  intros H.
  pose proof (year_of_window_wide d H) as W.
  assert (R : 10500 <= d < 10500 + Z.of_nat (Z.to_nat 59000)).
  { rewrite Z2Nat.id by lia. lia. }
  assert (C : check_from 10500 (Z.to_nat 59000) year_in_wide_ok = true)
    by (vm_compute; reflexivity).
  pose proof (check_from_sound _ _ _ C d R) as K.
  unfold year_in_wide_ok in K.
  apply orb_true_iff in K. destruct K as [K | K].
  - apply negb_true_iff, andb_false_iff in K.
    destruct K as [K | K]; apply Z.leb_gt in K; lia.
  - apply andb_true_iff in K. destruct K as [K1 K2].
    apply Z.leb_le in K1. apply Z.ltb_lt in K2. lia.
Qed.

(** [GoTimeFacts.Date_of_fields] for the years 2000-2159. *)
Lemma Date_of_fields_wide (t : GoTime.Time) :
  GoTime.loc t = GoTime.UTC -> GoTime.nsec t = 0 ->
  2000 <= GoTime.Year t <= 2159 ->
  GoTime.Date (GoTime.Year t) (GoTime.Month t) (GoTime.Day t)
    (GoTime.Hour t) (GoTime.Minute t) (GoTime.Second t) 0 GoTime.UTC = t
  /\ 0 <= GoTime.Year t - 2000 < 160
  /\ 0 <= GoTime.Month t < 100
  /\ 0 <= GoTime.Day t < 100
  /\ 0 <= GoTime.Hour t < 100
  /\ 0 <= GoTime.Minute t < 100
  /\ 0 <= GoTime.Second t < 60.
Proof.
  destruct t as [u n l]. cbn [GoTime.loc GoTime.nsec]. intros -> -> Y.
  unfold GoTime.Year, GoTime.Month, GoTime.Day, GoTime.Hour, GoTime.Minute,
    GoTime.Second, GoTime.wall in *.
  cbn [GoTime.unix GoTime.loc GoTime.zone_offset] in *. rewrite Z.add_0_r in *.
  pose proof (year_of_wide (u / 86400) Y) as R.
  pose proof (civil_ok_wide_checked _ R) as K.
  unfold civil_ok_wide in K.
  destruct (GoTime.civil_from_days (u / 86400)) as [[y m] d]. cbn [fst snd] in *.
  repeat (apply andb_true_iff in K; destruct K as [K ?]).
  repeat match goal with
         | H : (_ <=? _) = true |- _ => apply Z.leb_le in H
         | H : (_ =? _) = true |- _ => apply Z.eqb_eq in H
         end.
  split; [| divlia].
  unfold GoTime.Date. cbv zeta. cbn [GoTime.zone_offset].
  replace ((m - 1) / 12) with 0 by divlia.
  replace ((m - 1) mod 12 + 1) with m by divlia.
  replace (y + 0) with y by lia.
  rewrite GoTimeFacts.days_from_civil_day, K.
  f_equal. divlia.
Qed.

(** Decoding the encoding on 0..159. *)
Lemma parseBcd_encodeBcd_below_160 (d : Z) :
  0 <= d < 160 -> parseBcd (encodeBcd d) = d.
Proof.
  intros R.
  assert (C : check_from 0 160 (fun z => parseBcd (encodeBcd z) =? z) = true)
    by (vm_compute; reflexivity).
  apply Z.eqb_eq. apply (check_from_sound _ _ _ C). lia.
Qed.

(** X14: the round trip of the time reaches the years 2000 to 2159: for
    every time with no fraction of a second whose year in UTC is in that
    range, over a transport that echoes, GetTime after SetTime returns
    the time in UTC. *)
Theorem SetTime_GetTime_roundtrip_until_2159 {T : Transport} (p : Pcf8523 T)
    (b : BusCloser T) (s : state T) (t : GoTime.Time) :
  Bus (Device p) = Some b ->
  echoes T b (Addr (Device p)) (env s) ->
  GoTime.nsec t = 0 ->
  2000 <= GoTime.Year (GoTime.In t GoTime.UTC) <= 2159 ->
  exists s1 s2 : state T,
    SetTime p t s = Ok None s1
    /\ GetTime p s1 = Ok (GoTime.mkTime (GoTime.unix t) 0 GoTime.UTC, None) s2.
Proof.
  intros B E N Y.
  destruct (Date_of_fields_wide (GoTime.In t GoTime.UTC) eq_refl N Y)
    as (D & Ry & Rm & Rd & Rh & Rmi & Rs).
  unfold SetTime, GetTime, bind, ret, Tx. cbv zeta. rewrite B.
  match goal with
  | |- context [Bus_Tx T b _ (x03 :: ?data) 0 _] =>
      destruct (E x03 data) as (junk & w1 & w2 & W & R)
  end.
  rewrite W. eexists. eexists. split; [reflexivity|].
  cbn [env length] in *. rewrite R.
  match goal with
  | |- context [fill 7 ?data] =>
      change (fill 7 data) with (fill (length data) data); rewrite fill_exact
  end.
  cbn [nth].
  rewrite !parseBcd_encodeBcd_below_160 by lia.
  replace (Z.land (GoTime.Second (GoTime.In t GoTime.UTC)) 127)
    with (GoTime.Second (GoTime.In t GoTime.UTC)).
  - replace (2000 + (GoTime.Year (GoTime.In t GoTime.UTC) - 2000))
      with (GoTime.Year (GoTime.In t GoTime.UTC)) by lia.
    rewrite D. unfold GoTime.In. rewrite N. reflexivity.
  - change 127 with (Z.ones 7). rewrite Z.land_ones by lia.
    symmetry. apply Z.mod_small. lia.
Qed.

(** 2150-08-17 05:20:00 UTC. *)
Lemma SetTime_GetTime_roundtrip_until_2159_witness :
  exists s1 s2 : state Mock.transport,
    SetTime (Mock.handle 104) (GoTime.mkTime 5700000000 0 GoTime.UTC)
      (Mock.start (Mock.all_regs x00) []) = Ok None s1
    /\ GetTime (Mock.handle 104) s1
       = Ok (GoTime.mkTime 5700000000 0 GoTime.UTC, None) s2.
Proof.
  apply (SetTime_GetTime_roundtrip_until_2159 (Mock.handle 104) tt
           (Mock.start (Mock.all_regs x00) [])
           (GoTime.mkTime 5700000000 0 GoTime.UTC)).
  - reflexivity.
  - apply Mock_echoes.
  - reflexivity.
  - vm_compute. split; discriminate.
Defined.

(** The first second of 2160 does not come back: its year byte is 0x00
    and it reads as the first second of 2000. *)
Example SetTime_GetTime_2160 :
  let t := GoTime.mkTime 5995814400 0 GoTime.UTC in
  GoTime.Year t = 2160
  /\ match SetTime (Mock.handle 104) t (Mock.start (Mock.all_regs x00) []) with
     | Ok _ s1 =>
         match GetTime (Mock.handle 104) s1 with
         | Ok (t', _) _ => t' = GoTime.mkTime 946684800 0 GoTime.UTC
         | Panic => False
         end
     | Panic => False
     end.
Proof. vm_compute. split; reflexivity. Qed.

(** ** Opening and closing *)

(** Case analysis of a run of NewPcf8523 over the answers of the
    transport. *)
Ltac run_NewPcf8523 :=
  unfold NewPcf8523, ReadReg, WriteReg, Open, Tx, bind, ret; simpl;
  repeat match goal with
         | |- context [i2creg_Open ?a ?b ?c] =>
             destruct (i2creg_Open a b c) as [[?|?] ?] eqn:?; simpl
         | |- context [Bus_Tx ?a ?b ?c ?d ?e ?f] =>
             destruct (Bus_Tx a b c d e f) as [[? [?|]] ?] eqn:?; simpl
         | |- context [negb ?x] => destruct (negb x) eqn:?; simpl
         end.

Lemma clear_flag_bit (c : byte) :
  Z.testbit (u8 (to_byte (Z.land (u8 c) 0x7F))) 7 = false
  /\ u8 (to_byte (Z.land (u8 c) 0x7F)) = u8 c mod 128.
Proof.
  destruct c; split; reflexivity.
Qed.

(** X15: after opening the bus NewPcf8523 issues at most three
    transactions, all on register 0x03: a one-byte read, then at most one
    write, whose value has bit 7 clear, then at most one more one-byte
    read. No other register is touched and nothing is retried. *)
Theorem NewPcf8523_transactions {T : Transport}
    (path : string) (i2caddr : Z) (s : state T) :
  match NewPcf8523 path i2caddr s with
  | Ok _ s' =>
      exists evs : list event,
        trace s' = trace s ++ EvOpen path :: evs
        /\ (evs = []
            \/ evs = [EvTx i2caddr [x03] 1]
            \/ exists v : byte,
                 Z.testbit (u8 v) 7 = false
                 /\ (evs = [EvTx i2caddr [x03] 1; EvTx i2caddr [x03; v] 0]
                     \/ evs = [EvTx i2caddr [x03] 1; EvTx i2caddr [x03; v] 0;
                               EvTx i2caddr [x03] 1]))
  | Panic => False
  end.
Proof.
  run_NewPcf8523.
  all: repeat rewrite <- app_assoc; simpl.
  all: eexists; split; [reflexivity|].
  all: try (left; reflexivity).
  all: try (right; left; reflexivity).
  all: right; right; eexists; split; [apply clear_flag_bit|].
  all: try (left; reflexivity).
  all: right; reflexivity.
Qed.

(** X16: whatever the transport answers, the handle NewPcf8523 returns
    is either the zero value or, with a nil error, the handle on the bus
    that was opened and the address given; and when opening the bus
    fails, it returns that error with the zero handle and issues no
    transaction. *)
Theorem NewPcf8523_result {T : Transport}
    (path : string) (i2caddr : Z) (s : state T) :
  match NewPcf8523 path i2caddr s with
  | Ok (p, err) s' =>
      (p = Pcf8523_zero
       \/ (err = None
           /\ exists (b : BusCloser T) (w1 : World T),
                i2creg_Open T path (env s) = (inr b, w1)
                /\ p = mkPcf8523 (mkDev i2caddr (Some b)) (Some b)))
      /\ (forall (e : error) (w1 : World T),
            i2creg_Open T path (env s) = (inl e, w1) ->
            p = Pcf8523_zero /\ err = Some e
            /\ s' = mkState w1 (trace s ++ [EvOpen path]))
  | Panic => False
  end.
Proof.
  run_NewPcf8523.
  all: split;
    [ first [ left; reflexivity
            | right; split; [reflexivity|]; eexists; eexists;
              split; reflexivity ]
    | intros e' w1' H; try discriminate H;
      injection H as -> ->; repeat split ].
Qed.

(** X17: when the bus opens and the first read of register 0x03
    succeeds with bit 7 clear, NewPcf8523 writes nothing: it returns,
    with a nil error, the handle on that bus after that one read; and
    Close on that handle closes that bus. *)
Theorem NewPcf8523_running_oscillator {T : Transport}
    (path : string) (i2caddr : Z) (s : state T) (b : BusCloser T)
    (w1 w2 : World T) (data : list byte) :
  i2creg_Open T path (env s) = (inr b, w1) ->
  Bus_Tx T b i2caddr [x03] 1 w1 = ((data, None), w2) ->
  Z.testbit (u8 (nth 0 (fill 1 data) x00)) 7 = false ->
  let p := mkPcf8523 (mkDev i2caddr (Some b)) (Some b) in
  let s1 := mkState w2 (trace s ++ [EvOpen path; EvTx i2caddr [x03] 1]) in
  NewPcf8523 path i2caddr s = Ok (p, None) s1
  /\ Close p s1
     = Ok tt (mkState (snd (Bus_Close T b w2))
                (trace s ++ [EvOpen path; EvTx i2caddr [x03] 1; EvClose])).
Proof.
  intros O R F. cbv zeta. split.
  - unfold NewPcf8523, ReadReg, WriteReg, Open, Tx, bind, ret. simpl.
    rewrite O. simpl. rewrite R. simpl.
    assert (E : (Z.land (u8 (nth 0 (fill 1 data) x00)) 128 =? 0) = true).
    { revert F. generalize (nth 0 (fill 1 data) x00). intros c.
      destruct c; vm_compute; congruence. }
    rewrite E. simpl. rewrite <- app_assoc. reflexivity.
  - unfold Close. simpl.
    destruct (Bus_Close T b w2) as [ce w3]. simpl.
    rewrite <- app_assoc. reflexivity.
Qed.

Lemma NewPcf8523_running_oscillator_witness :
  NewPcf8523 "/dev/i2c-1" 104 (Mock.start (Mock.one_reg 3 x42) [])
  = Ok (Mock.handle 104, None)
       (mkState (T := Mock.transport)
          (Mock.mkWorld (Mock.one_reg 3 x42) [] None false)
          ([] ++ [EvOpen "/dev/i2c-1"; EvTx 104 [x03] 1]))
  /\ Close (Mock.handle 104)
       (mkState (T := Mock.transport)
          (Mock.mkWorld (Mock.one_reg 3 x42) [] None false)
          ([] ++ [EvOpen "/dev/i2c-1"; EvTx 104 [x03] 1]))
     = Ok tt
         (mkState (T := Mock.transport)
            (Mock.mkWorld (Mock.one_reg 3 x42) [] None true)
            ([] ++ [EvOpen "/dev/i2c-1"; EvTx 104 [x03] 1; EvClose])).
Proof.
  exact (NewPcf8523_running_oscillator "/dev/i2c-1" 104
           (Mock.start (Mock.one_reg 3 x42) []) tt
           (Mock.mkWorld (Mock.one_reg 3 x42) [] None false)
           (Mock.mkWorld (Mock.one_reg 3 x42) [] None false)
           [x42] eq_refl eq_refl eq_refl).
Defined.

(** X18: when the first read shows bit 7 set and the corrective write
    and the second read both succeed, the outcome is decided by bit 7 of
    the second read alone: set, NewPcf8523 returns the zero handle with
    the error "PCF8523 oscillator stopped"; clear, it returns the handle
    with a nil error. The byte written is the first read with bit 7
    cleared. *)
Theorem NewPcf8523_recovery {T : Transport}
    (path : string) (i2caddr : Z) (s : state T) (b : BusCloser T)
    (w1 w2 w3 w4 : World T) (data1 junk data2 : list byte) :
  let c1 := nth 0 (fill 1 data1) x00 in
  let c2 := nth 0 (fill 1 data2) x00 in
  let v := to_byte (Z.land (u8 c1) 0x7F) in
  i2creg_Open T path (env s) = (inr b, w1) ->
  Bus_Tx T b i2caddr [x03] 1 w1 = ((data1, None), w2) ->
  Z.testbit (u8 c1) 7 = true ->
  Bus_Tx T b i2caddr [x03; v] 0 w2 = ((junk, None), w3) ->
  Bus_Tx T b i2caddr [x03] 1 w3 = ((data2, None), w4) ->
  u8 v = u8 c1 mod 128
  /\ NewPcf8523 path i2caddr s
     = Ok (if Z.testbit (u8 c2) 7
           then (Pcf8523_zero, Some (ErrorsNew "PCF8523 oscillator stopped"%string))
           else (mkPcf8523 (mkDev i2caddr (Some b)) (Some b), None))
          (mkState w4
             (trace s ++ [EvOpen path; EvTx i2caddr [x03] 1;
                          EvTx i2caddr [x03; v] 0; EvTx i2caddr [x03] 1])).
Proof.
  cbv zeta. intros O R1 F W R2.
  split; [apply clear_flag_bit|].
  assert (E2 : negb (Z.land (u8 (nth 0 (fill 1 data2) x00)) 128 =? 0)
               = Z.testbit (u8 (nth 0 (fill 1 data2) x00)) 7).
  { generalize (nth 0 (fill 1 data2) x00). intros c. destruct c; reflexivity. }
  set (flag := Z.testbit (u8 (nth 0 (fill 1 data2) x00)) 7) in *.
  unfold NewPcf8523, ReadReg, WriteReg, Open, Tx, bind, ret. simpl.
  rewrite O. simpl. rewrite R1. simpl.
  assert (E1 : (Z.land (u8 (nth 0 (fill 1 data1) x00)) 128 =? 0) = false).
  { revert F. generalize (nth 0 (fill 1 data1) x00). intros c.
    destruct c; vm_compute; congruence. }
  rewrite E1. simpl. rewrite W. simpl. rewrite R2. simpl.
  rewrite E2.
  destruct flag; cbv iota; repeat rewrite <- app_assoc; reflexivity.
Qed.

(** A device on which the flag does not clear. *)
Lemma NewPcf8523_recovery_witness :
  u8 (to_byte (Z.land (u8 x80) 0x7F)) = u8 x80 mod 128
  /\ NewPcf8523 "/dev/i2c-1" 104 Stuck.start
     = Ok (Pcf8523_zero, Some (ErrorsNew "PCF8523 oscillator stopped"%string))
          (mkState (T := Stuck.transport) tt
             ([] ++ [EvOpen "/dev/i2c-1"; EvTx 104 [x03] 1;
                     EvTx 104 [x03; x00] 0; EvTx 104 [x03] 1])).
Proof.
  exact (NewPcf8523_recovery "/dev/i2c-1" 104 Stuck.start tt tt tt tt tt
           [x80] [] [x80] eq_refl eq_refl eq_refl eq_refl eq_refl).
Defined.
